(** * Farm-operation scheduling backend: weather windows, cost and yield
      estimation, recommendation, schedule generation, partial budgeting.

    Shallow embedding of
      - app/weather/service.py        (WeatherService)
      - app/decision_tree/engine.py   (DecisionTreeEngine)
      - app/scheduling/service.py     (SchedulingService)
      - app/financial/partial_budgeting.py (PartialBudgeting)
    with the rows and schemas of app/models.py and app/schemas.py that
    these services read, and WEATHER_PARAMS of config.py.

    Numbers.  Python [int] and [float] values are modelled by the exact
    rationals [Q]; rounding, infinities and NaN are outside the model.
    Numeric results are compared with [==] (Qeq).

    Dates.  A [datetime] is a number of seconds on a fixed time line; the
    "YYYY-MM-DD" string of a daily forecast entry is identified with its day
    number, so that [strftime "%Y-%m-%d"] is the day of a datetime and
    [datetime.fromisoformat] of a day string is midnight of that day.

    Exceptions.  Code that can raise returns an [outcome]. *)

From Stdlib Require Import QArith Qround Qabs Qminmax Lqa ZArith Lia.
From Stdlib Require Import Sorting.Sorted Sorting.Permutation.
From stdpp Require Import base list strings gmap pretty.

(* ===================================================================== *)
(** * Python run-time notions shared by the services                      *)
(* ===================================================================== *)

Module Py.

(** Boolean comparisons on numbers. *)
Definition Qltb (x y : Q) : bool := negb (Qle_bool y x).
Definition Qleb (x y : Q) : bool := Qle_bool x y.
Definition Qeqb (x y : Q) : bool := Qeq_bool x y.

(** [max(0, x)] and [min(a, b)] on numbers, as Python evaluates them: the
    first argument is kept unless the second is strictly larger (smaller). *)
Definition max_ (a b : Q) : Q := if Qltb a b then b else a.
Definition min_ (a b : Q) : Q := if Qltb b a then b else a.

(** Exceptions raised by the embedded code.  The two [Exception(...)] raise
    sites of the services are told apart by their message. *)
Inductive exn : Type :=
| TypeError
    (* comparison of None with a number; a call that misses a positional
       argument or passes a keyword twice *)
| FieldNotFound (field_id : Z)
    (* Exception(f"Field with id {field_id} not found") *)
| NoSuitableWindows
    (* Exception("No suitable weather windows found in the next 30 days") *)
| IndexError
    (* suitable_windows[0] on an empty list *)
| NameError
    (* use of a name that the module neither defines nor imports *)
| AttributeError.
    (* read of an attribute that the object's class does not declare *)

Inductive outcome (A : Type) : Type :=
| Returns (a : A)
| Raises (e : exn).
Arguments Returns {A} a.
Arguments Raises {A} e.

#[global] Instance outcome_ret : MRet outcome := fun A a => Returns a.

#[global] Instance outcome_bind : MBind outcome := fun A B k m =>
  match m with
  | Returns a => k a
  | Raises e => Raises e
  end.

#[global] Instance outcome_fmap : FMap outcome := fun A B f m =>
  match m with
  | Returns a => Returns (f a)
  | Raises e => Raises e
  end.

(** A value that is about to be compared with a number: [None > 0] raises
    TypeError. *)
Definition as_number (v : option Q) : outcome Q :=
  match v with
  | Some q => Returns q
  | None => Raises TypeError
  end.

(** [v and test(v)] on an optional number: [None] and [0] are falsy, so
    [test] is only evaluated on a non-zero number. *)
Definition and_then (v : option Q) (test : Q -> bool) : bool :=
  match v with
  | Some q => negb (Qeqb q 0) && test q
  | None => false
  end.

(** [list.sort(key=..., reverse=True)] and [sorted(..., reverse=True)]:
    Python's sort is stable, also with [reverse=True]; it only uses [<] on
    the keys.  The result is fixed by these two facts, and is computed here
    by insertion from the right: an element goes in front of the first
    element whose key is not strictly larger than its own. *)
Section Sort.
Context {A K : Type} (ltb : K -> K -> bool) (key : A -> K).

Fixpoint insert_desc (x : A) (l : list A) : list A :=
  match l with
  | [] => [x]
  | y :: l' =>
      if ltb (key x) (key y) then y :: insert_desc x l' else x :: y :: l'
  end.

Definition sort_desc (l : list A) : list A := foldr insert_desc [] l.

(** [a] may stand before [b] in a descending list. *)
Definition desc (a b : A) : Prop := ltb (key a) (key b) = false.

End Sort.

(** Tuple keys compare lexicographically. *)
Definition pair_ltb (a b : Q * Q) : bool :=
  Qltb a.1 b.1 || (Qeqb a.1 b.1 && Qltb a.2 b.2).

(** [f"{x:.2f}"]: two decimals, ties to even, on the exact value. *)
Definition round_half_even (q : Q) : Z :=
  let f := Qfloor q in
  match (q - inject_Z f ?= 1 # 2)%Q with
  | Lt => f
  | Gt => (f + 1)%Z
  | Eq => if Z.even f then f else (f + 1)%Z
  end.

Definition two_digits (n : Z) : string :=
  if (n <? 10)%Z then "0" +:+ pretty n else pretty n.

Definition format_2f (q : Q) : string :=
  let n := round_half_even (Qabs q * 100) in
  (if Qltb q 0 then "-" else "")
    +:+ pretty (n / 100)%Z +:+ "." +:+ two_digits (n mod 100)%Z.

End Py.

Import Py.

(* ===================================================================== *)
(** * app/financial/partial_budgeting.py                                  *)
(* ===================================================================== *)

Module PartialBudgeting.

Record PartialBudgetingInput : Type := {
  added_returns : Q;
  reduced_costs : Q;
  added_costs : Q;
  reduced_returns : Q
}.

Record PartialBudgetingResponse : Type := {
  net_benefit : Q;
  is_profitable : bool;
  recommendation : string
}.

Definition proceed_text (nb : Q) : string :=
  "Proceed with the change. Expected net benefit: " +:+ format_2f nb +:+ " PHP".

Definition neutral_text : string :=
  "The change is neutral. Consider other factors before proceeding.".

Definition loss_text (nb : Q) : string :=
  "Do not proceed. Expected net loss: " +:+ format_2f (Qabs nb) +:+ " PHP".

Definition calculate_net_benefit (input_data : PartialBudgetingInput)
  : PartialBudgetingResponse :=
  let total_benefits := (added_returns input_data + reduced_costs input_data)%Q in
  let total_costs := (added_costs input_data + reduced_returns input_data)%Q in
  let nb := (total_benefits - total_costs)%Q in
  {| net_benefit := nb;
     is_profitable := Qltb 0 nb;
     recommendation :=
       if Qltb 0 nb then proceed_text nb
       else if Qeqb nb 0 then neutral_text
       else loss_text nb |}.

(** The role swap of the antisymmetry property: added and reduced returns
    are exchanged, and so are reduced and added costs. *)
Definition swap_roles (i : PartialBudgetingInput) : PartialBudgetingInput :=
  {| added_returns := reduced_returns i;
     reduced_costs := added_costs i;
     added_costs := reduced_costs i;
     reduced_returns := added_returns i |}.

(** A Python [dict] from resource names to numbers, in insertion order;
    a well-formed dict has no repeated key. *)
Definition dict : Type := list (string * Q).

Definition dict_get (d : dict) (k : string) : option Q :=
  snd <$> List.find (fun kv => String.eqb kv.1 k) d.

(** [d[k] = v]: overwrite in place, or append a new key. *)
Fixpoint dict_set (d : dict) (k : string) (v : Q) : dict :=
  match d with
  | [] => [(k, v)]
  | (k', v') :: d' =>
      if String.eqb k' k then (k', v) :: d' else (k', v') :: dict_set d' k v
  end.

Definition dict_values (d : dict) : list Q := List.map snd d.

(** [sum(d.values())] *)
Definition total (d : dict) : Q := foldr Qplus 0%Q (dict_values d).

(** [benefit / cost if cost > 0 else 0], with
    [benefit = constraints.get(f"{resource}_benefit", cost * 1.5)]. *)
Definition ratio (constraints : gmap string Q) (resource : string) (cost : Q) : Q :=
  let benefit :=
    default (cost * (15 # 10))%Q (constraints !! (resource +:+ "_benefit")) in
  if Qltb 0 cost then (benefit / cost)%Q else 0%Q.

(** The [ratios] dict: one entry per resource, in the order of [resources]. *)
Definition ratios (resources : dict) (constraints : gmap string Q) : dict :=
  List.map (fun kv => (kv.1, ratio constraints kv.1 kv.2)) resources.

(** The allocation loop over [sorted_resources]; [resources[resource]] is
    always present, since the ranked names come from [resources]. *)
Fixpoint allocate (resources : dict) (sorted_resources : dict)
    (remaining_budget : Q) (optimized_allocation : dict) : dict :=
  match sorted_resources with
  | [] => optimized_allocation
  | (resource, _) :: rest =>
      let resource_cost := default 0%Q (dict_get resources resource) in
      let '(optimized_allocation, remaining_budget) :=
        if Qleb resource_cost remaining_budget
        then (dict_set optimized_allocation resource resource_cost,
              (remaining_budget - resource_cost)%Q)
        else (dict_set optimized_allocation resource remaining_budget, 0%Q) in
      if Qleb remaining_budget 0 then optimized_allocation
      else allocate resources rest remaining_budget optimized_allocation
  end.

Definition sorted_resources (resources : dict) (constraints : gmap string Q) : dict :=
  sort_desc Qltb snd (ratios resources constraints).

Definition optimize_resource_allocation (resources : dict)
    (constraints : gmap string Q) : dict :=
  let total_budget := default 0%Q (constraints !! "budget") in
  allocate resources (sorted_resources resources constraints) total_budget [].

End PartialBudgeting.

(* ===================================================================== *)
(** * app/weather/service.py                                              *)
(* ===================================================================== *)

Module Weather.

Definition datetime : Type := Z.
Bind Scope Z_scope with datetime.

(** [timedelta(days=n)] *)
Definition days (n : Z) : Z := (n * 86400)%Z.

(** [date.strftime("%Y-%m-%d")], as a day number. *)
Definition strftime_ymd (t : datetime) : Z := (t / 86400)%Z.

(** [datetime.fromisoformat(s)] of a day string: midnight of that day. *)
Definition fromisoformat (d : Z) : datetime := (d * 86400)%Z.

(** One entry of [weather_data["daily"]], as [_process_weather_data] builds
    it.  [precipitation_sum] is [None] when the key is absent, [Some None]
    when it is present with value None; for the two temperatures
    [.get(key)] gives None in both cases. *)
Record daily_entry : Type := {
  date : Z;
  precipitation_sum : option (option Q);
  temperature_2m_max : option Q;
  temperature_2m_min : option Q
}.

(** [weather_data.get("daily", [])] *)
Record weather_data : Type := { daily : list daily_entry }.

Record suitability : Type := {
  is_suitable : bool;
  reasons : list string;
  risks : list string
}.

Record window : Type := {
  window_date : datetime;
  weather_score : Q;
  precipitation : Q;
  temperature_max : option Q;
  temperature_min : option Q;
  window_is_suitable : bool;
  (* keys added by DecisionTreeEngine.predict_optimal_date *)
  estimated_cost : option Q;
  budget_ok : option bool;
  predicted_yield_value : option Q;
  net_financial_return : option Q
}.

Section Suitability.
(** Python's conversion of a number to text inside an f-string. *)
Variable str_of_number : Q -> string.

(** Body of the [if daily_entry.get("date") == target_date:] branch. *)
Definition check_entry (requires_dry_weather : bool) (daily_entry : daily_entry)
    (s : suitability) : outcome suitability :=
  let precipitation := default (Some 0%Q) (precipitation_sum daily_entry) in
  s ← (if requires_dry_weather then
         p ← as_number precipitation;
         mret (if Qltb 0 p then
                 {| is_suitable := false;
                    reasons := reasons s ++
                      ["Rain expected (" +:+ str_of_number p +:+ " mm)"];
                    risks := risks s ++ ["Chemical runoff risk"] |}
               else s)
       else mret s);
  let temp_max := temperature_2m_max daily_entry in
  let temp_min := temperature_2m_min daily_entry in
  let s := if and_then temp_max (fun t => Qltb 35 t)
           then {| is_suitable := is_suitable s; reasons := reasons s;
                   risks := risks s ++ ["High temperature stress"] |}
           else s in
  let s := if and_then temp_min (fun t => Qltb t 10)
           then {| is_suitable := is_suitable s; reasons := reasons s;
                   risks := risks s ++ ["Low temperature stress"] |}
           else s in
  mret s.

(** The [for daily_entry in ...] loop; it stops at the first entry of the
    target date ([break]). *)
Fixpoint check_loop (target_date : Z) (requires_dry_weather : bool)
    (entries : list daily_entry) (s : suitability) : outcome suitability :=
  match entries with
  | [] => mret s
  | daily_entry :: rest =>
      if (date daily_entry =? target_date)%Z
      then check_entry requires_dry_weather daily_entry s
      else check_loop target_date requires_dry_weather rest s
  end.

Definition check_weather_suitability (weather_data : weather_data)
    (date : datetime) (requires_dry_weather : bool) : outcome suitability :=
  let target_date := strftime_ymd date in
  let suitability := {| is_suitable := true; reasons := []; risks := [] |} in
  check_loop target_date requires_dry_weather (daily weather_data) suitability.

End Suitability.

(** The score before clamping, for a numeric precipitation. *)
Definition raw_score (requires_dry_weather : bool) (precipitation : Q)
    (temp_max : option Q) : Q :=
  let weather_score := 100%Q in
  let weather_score :=
    if requires_dry_weather then
      if Qltb 0 precipitation then (weather_score - precipitation * 20)%Q
      else weather_score
    else
      if Qltb 10 precipitation then (weather_score - 30)%Q
      else weather_score in
  if and_then temp_max (fun t => Qleb 20 t && Qleb t 30)
  then (weather_score + 10)%Q
  else if and_then temp_max (fun t => Qltb t 15 || Qltb 35 t)
  then (weather_score - 20)%Q
  else weather_score.

(** Body of the [if start_date <= entry_date <= end_date:] branch.  Both
    branches on [requires_dry_weather] start by comparing the precipitation
    with a number. *)
Definition score_entry (requires_dry_weather : bool) (entry_date : datetime)
    (daily_entry : daily_entry) : outcome window :=
  let precipitation := default (Some 0%Q) (precipitation_sum daily_entry) in
  let temp_max := temperature_2m_max daily_entry in
  let temp_min := temperature_2m_min daily_entry in
  p ← as_number precipitation;
  let weather_score := raw_score requires_dry_weather p temp_max in
  mret {| window_date := entry_date;
          weather_score := max_ 0 weather_score;
          precipitation := p;
          temperature_max := temp_max;
          temperature_min := temp_min;
          window_is_suitable := Qleb 70 weather_score;
          estimated_cost := None;
          budget_ok := None;
          predicted_yield_value := None;
          net_financial_return := None |}.

Definition in_range (start_date end_date : datetime) (e : daily_entry) : bool :=
  let entry_date := fromisoformat (date e) in
  (start_date <=? entry_date)%Z && (entry_date <=? end_date)%Z.

(** The [for daily_entry in ...] loop of get_optimal_weather_window. *)
Fixpoint collect_windows (start_date end_date : datetime)
    (requires_dry_weather : bool) (entries : list daily_entry)
  : outcome (list window) :=
  match entries with
  | [] => mret []
  | daily_entry :: rest =>
      if in_range start_date end_date daily_entry then
        w ← score_entry requires_dry_weather
              (fromisoformat (date daily_entry)) daily_entry;
        ws ← collect_windows start_date end_date requires_dry_weather rest;
        mret (w :: ws)
      else collect_windows start_date end_date requires_dry_weather rest
  end.

Definition get_optimal_weather_window (weather_data : weather_data)
    (start_date end_date : datetime) (requires_dry_weather : bool)
  : outcome (list window) :=
  optimal_windows ← collect_windows start_date end_date requires_dry_weather
                      (daily weather_data);
  mret (sort_desc Qltb weather_score optimal_windows).

End Weather.

(* ===================================================================== *)
(** * app/schemas.py, app/models.py: the records the services exchange    *)
(* ===================================================================== *)

Module Schemas.

Inductive CropTypeEnum : Type := coconut | corn | rice.

Inductive OperationTypeEnum : Type :=
| land_preparation | planting | fertilization
| irrigation | pest_control | harvesting.

(** [.value] of an operation type; the enum mixes in [str], so a member is
    looked up in a dict with string keys by this value. *)
Definition operation_value (o : OperationTypeEnum) : string :=
  match o with
  | land_preparation => "land_preparation"
  | planting => "planting"
  | fertilization => "fertilization"
  | irrigation => "irrigation"
  | pest_control => "pest_control"
  | harvesting => "harvesting"
  end.

(** A row of the [fields] table; the crop type and the planting date are
    nullable columns. *)
Record Field : Type := {
  id : Z;
  name : string;
  area_hectares : Q;
  crop_type : option CropTypeEnum;
  planting_date : option Weather.datetime
}.

Record DecisionTreeRequest : Type := {
  request_field_id : Z;
  operation_type : OperationTypeEnum;
  budget_constraint : option Q
}.

Record DecisionTreeResponse : Type := {
  recommended_date : Weather.datetime;
  confidence_score : Q;
  response_estimated_cost : Q;
  weather_risk : string;
  response_net_financial_return : option Q;
  recommendation_reason : string
}.

(** A row of the [scheduled_tasks] table.  The display strings [task_name]
    and [description] are not modelled. *)
Record ScheduledTask : Type := {
  task_type : string;
  scheduled_date : Weather.datetime;
  task_estimated_cost : Q;
  requires_dry_weather : bool;
  priority : Z;
  task_field_id : Z;
  user_id : Z;
  status : string;
  decision_tree_recommendation : bool
}.

(** The part of the database session the services read and write. *)
Record Session : Type := {
  fields : list Field;
  scheduled_tasks : list ScheduledTask
}.

(** [db.query(Field).filter(Field.id == field_id).first()] *)
Definition query_field (db : Session) (field_id : Z) : option Field :=
  List.find (fun f => (id f =? field_id)%Z) (fields db).

End Schemas.

(* ===================================================================== *)
(** * app/decision_tree/engine.py                                         *)
(* ===================================================================== *)

Module Engine.
Import Weather Schemas.

Record crop_parameter : Type := {
  growth_stages : gmap string Z;
  optimal_temp_range : Q * Q;
  optimal_rainfall : Q;
  fertilizer_frequency : Z
}.

Definition crop_parameters (c : CropTypeEnum) : crop_parameter :=
  match c with
  | coconut =>
      {| growth_stages := list_to_map
           [("land_preparation", 7); ("planting", 1); ("fertilization", 30);
            ("irrigation", 7); ("pest_control", 15); ("harvesting", 180)]%Z;
         optimal_temp_range := (25, 32)%Q;
         optimal_rainfall := 1500;
         fertilizer_frequency := 90 |}
  | corn =>
      {| growth_stages := list_to_map
           [("land_preparation", 7); ("planting", 1); ("fertilization", 21);
            ("irrigation", 3); ("pest_control", 14); ("harvesting", 90)]%Z;
         optimal_temp_range := (20, 30)%Q;
         optimal_rainfall := 500;
         fertilizer_frequency := 30 |}
  | rice =>
      {| growth_stages := list_to_map
           [("land_preparation", 14); ("planting", 1); ("fertilization", 25);
            ("irrigation", 1); ("pest_control", 20); ("harvesting", 120)]%Z;
         optimal_temp_range := (20, 35)%Q;
         optimal_rainfall := 1000;
         fertilizer_frequency := 35 |}
  end.

(** [self.crop_parameters.get(crop_type, self.crop_parameters[corn])] *)
Definition crop_parameters_get (crop_type : option CropTypeEnum) : crop_parameter :=
  match crop_type with
  | Some c => crop_parameters c
  | None => crop_parameters corn
  end.

Definition cost_estimates (area_hectares : Q) : gmap string Q :=
  list_to_map
    [("land_preparation", 5000 * area_hectares);
     ("planting", 3000 * area_hectares);
     ("fertilization", 2000 * area_hectares);
     ("irrigation", 1000 * area_hectares);
     ("pest_control", 1500 * area_hectares);
     ("harvesting", 4000 * area_hectares)]%Q.

Definition _estimate_operation_cost (operation_type : string)
    (area_hectares : Q) : Q :=
  default (1000 * area_hectares)%Q (cost_estimates area_hectares !! operation_type).

Definition base_yields (crop_type : option CropTypeEnum) : Q :=
  match crop_type with
  | Some coconut => 50000
  | Some corn => 30000
  | Some rice => 40000
  | None => 20000
  end.

Definition impact_factors : gmap string Q :=
  list_to_map
    [("land_preparation", 1 # 10);
     ("planting", 15 # 100);
     ("fertilization", 25 # 100);
     ("irrigation", 2 # 10);
     ("pest_control", 15 # 100);
     ("harvesting", 15 # 100)]%Q.

Definition _predict_yield (crop_type : option CropTypeEnum)
    (operation_type : string) (weather_score : Q) (area_hectares : Q) : Q :=
  let base_yield := base_yields crop_type in
  let impact := default (1 # 10)%Q (impact_factors !! operation_type) in
  let weather_multiplier := ((5 # 10) + weather_score / 100)%Q in
  (base_yield * area_hectares * impact * weather_multiplier)%Q.

(** Both estimators are plain functions of their arguments: no [raise], no
    lookup without a default, no state.  Calling one of them gives back its
    value. *)
Definition call_estimate_operation_cost (operation_type : string)
    (area_hectares : Q) : outcome Q :=
  mret (_estimate_operation_cost operation_type area_hectares).

Definition call_predict_yield (crop_type : option CropTypeEnum)
    (operation_type : string) (weather_score : Q) (area_hectares : Q)
  : outcome Q :=
  mret (_predict_yield crop_type operation_type weather_score area_hectares).

(** [request.budget_constraint and estimated_cost > request.budget_constraint] *)
Definition over_budget (budget_constraint : option Q) (estimated_cost : Q) : bool :=
  and_then budget_constraint (fun b => Qltb b estimated_cost).

(** First loop of predict_optimal_date: windows over budget are skipped
    ([continue]), the others are annotated and kept. *)
Fixpoint apply_budget_constraint (request : DecisionTreeRequest)
    (field : Field) (optimal_windows : list window) : list window :=
  match optimal_windows with
  | [] => []
  | w :: rest =>
      let cost :=
        _estimate_operation_cost (operation_value (operation_type request))
          (area_hectares field) in
      if over_budget (budget_constraint request) cost
      then apply_budget_constraint request field rest
      else
        let predicted_yield :=
          _predict_yield (crop_type field)
            (operation_value (operation_type request))
            (weather_score w) (area_hectares field) in
        {| window_date := window_date w;
           weather_score := weather_score w;
           precipitation := precipitation w;
           temperature_max := temperature_max w;
           temperature_min := temperature_min w;
           window_is_suitable := window_is_suitable w;
           estimated_cost := Some cost;
           budget_ok := Some true;
           predicted_yield_value := Some predicted_yield;
           net_financial_return := Some (predicted_yield - cost)%Q |}
        :: apply_budget_constraint request field rest
  end.

(** [estimated_cost <= request.budget_constraint if request.budget_constraint
    else True] *)
Definition within_budget (budget_constraint : option Q) (estimated_cost : Q) : bool :=
  match budget_constraint with
  | Some b => if negb (Qeqb b 0) then Qleb estimated_cost b else true
  | None => true
  end.

(** Second loop (budget relaxation): every window is kept; only the cost
    and the budget flag are written. *)
Definition relax_budget_constraint (request : DecisionTreeRequest)
    (field : Field) (optimal_windows : list window) : list window :=
  List.map
    (fun w =>
       let cost :=
         _estimate_operation_cost (operation_value (operation_type request))
           (area_hectares field) in
       {| window_date := window_date w;
          weather_score := weather_score w;
          precipitation := precipitation w;
          temperature_max := temperature_max w;
          temperature_min := temperature_min w;
          window_is_suitable := window_is_suitable w;
          estimated_cost := Some cost;
          budget_ok := Some (within_budget (budget_constraint request) cost);
          predicted_yield_value := predicted_yield_value w;
          net_financial_return := net_financial_return w |})
    optimal_windows.

(** The sort key [(net_financial_return or 0, weather_score)]. *)
Definition recommendation_key (w : window) : Q * Q :=
  (default 0%Q (net_financial_return w), weather_score w).

Definition weather_risk_of (best_window : window) : string :=
  let weather_risk := "low" in
  let weather_risk :=
    if Qltb 5 (precipitation best_window) then "medium" else weather_risk in
  if Qltb 10 (precipitation best_window) then "high" else weather_risk.

Definition recommendation_reasons (best_window : window) : list string :=
  [ if Qleb 80 (weather_score best_window) then "Excellent weather conditions"
    else if Qleb 60 (weather_score best_window) then "Good weather conditions"
    else "Acceptable weather conditions";
    if default false (budget_ok best_window) then "Within budget constraints"
    else "Estimated cost: "
           +:+ format_2f (default 0%Q (estimated_cost best_window)) +:+ " PHP" ].

(** ["; ".join(reasons)] *)
Fixpoint join (sep : string) (l : list string) : string :=
  match l with
  | [] => ""
  | [s] => s
  | s :: rest => s +:+ sep +:+ join sep rest
  end.

(** The working set of windows after the budget pass and, when that pass
    kept nothing, the relaxation pass; then sorted. *)
Definition ranked_windows (request : DecisionTreeRequest) (field : Field)
    (optimal_windows : list window) : list window :=
  let suitable_windows := apply_budget_constraint request field optimal_windows in
  let suitable_windows :=
    match suitable_windows with
    | [] => relax_budget_constraint request field optimal_windows
    | _ => suitable_windows
    end in
  sort_desc pair_ltb recommendation_key suitable_windows.

(** The dry-weather ranking, replaced by the ranking without the dry-weather
    requirement when it is empty. *)
Definition weather_windows (weather_data : weather_data)
    (start_date end_date : datetime) : outcome (list window) :=
  optimal_windows ←
    get_optimal_weather_window weather_data start_date end_date true;
  match optimal_windows with
  | [] => get_optimal_weather_window weather_data start_date end_date false
  | _ => mret optimal_windows
  end.

(** Lines 226-299 of predict_optimal_date, everything after the windows
    are ranked, as a function of the request, the field and
    [optimal_windows]: budget pass, relaxation pass, sort, choice of the
    first window and construction of the response. *)
Definition recommend (request : DecisionTreeRequest) (field : Field)
    (optimal_windows : list window) : outcome DecisionTreeResponse :=
  match ranked_windows request field optimal_windows with
  | [] => Raises IndexError
  | best_window :: _ =>
      mret {| recommended_date := window_date best_window;
              confidence_score :=
                min_ (95 # 100) (weather_score best_window / 100);
              response_estimated_cost :=
                default 0%Q (estimated_cost best_window);
              weather_risk := weather_risk_of best_window;
              response_net_financial_return :=
                net_financial_return best_window;
              recommendation_reason :=
                join "; " (recommendation_reasons best_window) |}
  end.

(** [weather_service = WeatherService()]: engine.py neither defines nor
    imports the name [WeatherService], so evaluating it raises NameError. *)
Definition WeatherService : outcome unit := Raises NameError.

(** [weather_data] is the forecast handed in by the caller and [now] the
    value of [datetime.now()]; [current_budget] is unused by the source. *)
Definition predict_optimal_date (db : Session) (request : DecisionTreeRequest)
    (weather_data : weather_data) (now : datetime)
  : outcome DecisionTreeResponse :=
  match query_field db (request_field_id request) with
  | None => Raises (FieldNotFound (request_field_id request))
  | Some field =>
      weather_service ← WeatherService;
      let start_date := now in
      let end_date := (start_date + days 30)%Z in
      optimal_windows ← weather_windows weather_data start_date end_date;
      match optimal_windows with
      | [] => Raises NoSuitableWindows
      | _ => recommend request field optimal_windows
      end
  end.

End Engine.

(* ===================================================================== *)
(** * app/scheduling/service.py                                           *)
(* ===================================================================== *)

Module Scheduling.
Import Weather Schemas Engine.

Definition default_operations : list string :=
  ["land_preparation"; "planting"; "fertilization";
   "irrigation"; "pest_control"; "harvesting"].

Definition priorities : gmap string Z :=
  list_to_map
    [("land_preparation", 1); ("planting", 2); ("fertilization", 3);
     ("irrigation", 4); ("pest_control", 3); ("harvesting", 1)]%Z.

Definition _calculate_priority (operation : string) : Z :=
  default 3%Z (priorities !! operation).

(** Keys of [task_data.model_dump()]: every field that ScheduledTaskBase
    declares, whether it was set or not. *)
Definition model_dump_keys : list string :=
  ["task_type"; "task_name"; "description"; "scheduled_date";
   "estimated_cost"; "requires_dry_weather"; "priority"; "status";
   "actual_cost"; "field_id"].

(** The constructor call of create_scheduled_task, which unpacks the
    mapping task_data.model_dump() into keywords and adds the keywords
    user_id and status="pending"; then [db.add(task); db.commit(); db.refresh(task)].
    A keyword passed both through the mapping and by name makes the call
    raise TypeError before any row is built.  [task] is the row the call
    would build. *)
Definition create_scheduled_task (db : Session) (task : ScheduledTask)
  : Session * outcome ScheduledTask :=
  if existsb (fun keyword => bool_decide (keyword ∈ model_dump_keys))
       ["user_id"; "status"]
  then (db, Raises TypeError)
  else ({| fields := fields db;
           scheduled_tasks := scheduled_tasks db ++ [task] |},
        Returns task).

(** Attributes of a row of models.Field (models.py, lines 64-80): its
    columns and its two relationships. *)
Definition Field_attributes : list string :=
  ["id"; "name"; "area_hectares"; "crop_type"; "planting_date";
   "expected_harvest_date"; "current_stage"; "farm_id"; "owner_id";
   "created_at"; "farm"; "scheduled_tasks"].

(** [field.<attribute>] for an attribute whose value the schedule does not
    use further: reading an attribute that the class does not declare
    raises AttributeError. *)
Definition getattr_Field (attribute : string) : outcome unit :=
  if bool_decide (attribute ∈ Field_attributes) then Returns ()
  else Raises AttributeError.

(** [self.weather_service.get_weather_forecast(weather_request)]: the method
    is declared with the parameters (db, request); called with a single
    argument it raises TypeError before its body runs, whatever [forecast]
    the service would deliver. *)
Definition get_weather_forecast_call (forecast : weather_data)
  : outcome weather_data :=
  Raises TypeError.

(** [next((w for w in optimal_windows if w["is_suitable"]), optimal_windows[0])]
    on a non-empty list. *)
Definition pick_window (first : window) (optimal_windows : list window) : window :=
  default first (List.find window_is_suitable optimal_windows).

Section Generate.
Variable str_of_number : Q -> string.

(** The date chosen for one operation. *)
Definition choose_date (weather_data : weather_data) (proposed_date : datetime)
  : outcome datetime :=
  weather_suitability ←
    check_weather_suitability str_of_number weather_data proposed_date true;
  if negb (is_suitable weather_suitability) then
    let start_window := (proposed_date - days 7)%Z in
    let end_window := (proposed_date + days 7)%Z in
    optimal_windows ←
      get_optimal_weather_window weather_data start_window end_window true;
    match optimal_windows with
    | first :: _ => mret (window_date (pick_window first optimal_windows))
    | [] => mret proposed_date
    end
  else mret proposed_date.

(** The [for operation in operations] loop.  A task is committed to the
    session as soon as it is created, so the session is threaded through
    and returned also when a step raises. *)
Fixpoint schedule_loop (weather_data : weather_data) (field : Field)
    (field_id user_id : Z) (operations : list string)
    (db : Session) (current_date : datetime)
    (scheduled : list ScheduledTask)
  : Session * outcome (list ScheduledTask) :=
  match operations with
  | [] => (db, Returns scheduled)
  | operation :: rest =>
      let crop_params := crop_parameters_get (crop_type field) in
      let days_to_add := default 7%Z (growth_stages crop_params !! operation) in
      let proposed_date := (current_date + days days_to_add)%Z in
      match choose_date weather_data proposed_date with
      | Raises e => (db, Raises e)
      | Returns optimal_date =>
          let task :=
            {| task_type := operation;
               scheduled_date := optimal_date;
               task_estimated_cost :=
                 _estimate_operation_cost operation (area_hectares field);
               requires_dry_weather := true;
               priority := _calculate_priority operation;
               task_field_id := field_id;
               user_id := user_id;
               status := "pending";
               decision_tree_recommendation := true |} in
          match create_scheduled_task db task with
          | (db, Raises e) => (db, Raises e)
          | (db, Returns task) =>
              schedule_loop weather_data field field_id user_id rest
                db optimal_date (scheduled ++ [task])
          end
      end
  end.

(** [weather_data] is the forecast the weather service would deliver and
    [now] the value of [datetime.now()].  The dictionary weather_request
    (lines 54-58) reads field.location_lat and field.location_lon before
    the forecast is asked for at line 60. *)
Definition generate_optimized_schedule (db : Session) (field_id user_id : Z)
    (operations : list string) (weather_data : weather_data) (now : datetime)
  : Session * outcome (list ScheduledTask) :=
  match query_field db field_id with
  | None => (db, Raises (FieldNotFound field_id))
  | Some field =>
      let operations :=
        match operations with
        | [] => default_operations
        | _ => operations
        end in
      let current_date := default now (planting_date field) in
      match (_ ← getattr_Field "location_lat";
             _ ← getattr_Field "location_lon";
             get_weather_forecast_call weather_data) with
      | Raises e => (db, Raises e)
      | Returns weather_data =>
          schedule_loop weather_data field field_id user_id operations
            db current_date []
      end
  end.

End Generate.

End Scheduling.

(* ===================================================================== *)
(** * app/weather/service.py: the forecast pipeline and the rule tree     *)
(* ===================================================================== *)

Module WeatherForecast.

(** [config.WEATHER_PARAMS] *)
Definition WEATHER_PARAMS : list string :=
  ["temperature_2m"; "relative_humidity_2m"; "precipitation"; "rain";
   "soil_moisture_0_1cm"; "soil_moisture_1_3cm"; "soil_moisture_3_9cm"].

(** One block ("hourly" or "daily") of the provider's JSON answer: the
    list under "time" (empty when the block or the key is absent) and the
    lists under every other key.  Times are numbers as in [Weather]: seconds
    for hourly stamps, day numbers for daily dates. *)
Record block : Type := {
  time : list Z;
  columns : gmap string (list (option Q))
}.

Record response : Type := {
  response_latitude : option Q;
  response_longitude : option Q;
  response_hourly : block;
  response_daily : block
}.

(** One processed entry: its "time" (hourly) or "date" (daily) and the
    other keys; a key can be present with value None. *)
Record entry : Type := {
  entry_time : Z;
  values : gmap string (option Q)
}.

Record forecast : Type := {
  latitude : option Q;
  longitude : option Q;
  hourly : list entry;
  daily : list entry;
  retrieved_at : Z;
  is_offline_data : bool
}.

(** [col[i] if i < len(col) else None] *)
Definition column_at (col : list (option Q)) (i : nat) : option Q :=
  default None (col !! i).

(** Keys of an hourly entry: the parameters of WEATHER_PARAMS that the
    block has. *)
Definition hourly_values (cols : gmap string (list (option Q))) (i : nat)
  : gmap string (option Q) :=
  foldl (fun m param =>
           match cols !! param with
           | Some col => <[param := column_at col i]> m
           | None => m
           end) ∅ WEATHER_PARAMS.

(** Keys of a daily entry: every key of the block other than "time". *)
Definition daily_values (cols : gmap string (list (option Q))) (i : nat)
  : gmap string (option Q) :=
  (fun col => column_at col i) <$> cols.

Definition _process_weather_data (data : response) (utcnow : Z) : forecast :=
  {| latitude := response_latitude data;
     longitude := response_longitude data;
     hourly :=
       imap (fun i t =>
               {| entry_time := t;
                  values := hourly_values (columns (response_hourly data)) i |})
         (time (response_hourly data));
     daily :=
       imap (fun i t =>
               {| entry_time := t;
                  values := daily_values (columns (response_daily data)) i |})
         (time (response_daily data));
     retrieved_at := utcnow;
     is_offline_data := false |}.

(** [entry.get(key)] *)
Definition entry_get (e : entry) (key : string) : option Q :=
  mjoin (values e !! key).

(** The daily entries as the suitability and ranking functions read
    them. *)
Definition daily_entry_of (e : entry) : Weather.daily_entry :=
  {| Weather.date := entry_time e;
     Weather.precipitation_sum := values e !! "precipitation_sum";
     Weather.temperature_2m_max := entry_get e "temperature_2m_max";
     Weather.temperature_2m_min := entry_get e "temperature_2m_min" |}.

Definition weather_data_of (f : forecast) : Weather.weather_data :=
  {| Weather.daily := List.map daily_entry_of (daily f) |}.

(** A row of the [weather_data] table. *)
Record WeatherData : Type := {
  location_lat : Q;
  location_lon : Q;
  date : Z;
  temperature_2m : option Q;
  relative_humidity_2m : option Q;
  precipitation : option Q;
  rain : option Q;
  snowfall : option Q;
  soil_moisture_0_1cm : option Q;
  soil_moisture_1_3cm : option Q;
  soil_moisture_3_9cm : option Q;
  soil_moisture_9_27cm : option Q;
  soil_moisture_27_81cm : option Q
}.

Definition weather_record (lat lon : Q) (e : entry) : WeatherData :=
  {| location_lat := lat;
     location_lon := lon;
     date := entry_time e;
     temperature_2m := entry_get e "temperature_2m";
     relative_humidity_2m := entry_get e "relative_humidity_2m";
     precipitation := entry_get e "precipitation";
     rain := entry_get e "rain";
     snowfall := entry_get e "snowfall";
     soil_moisture_0_1cm := entry_get e "soil_moisture_0_1cm";
     soil_moisture_1_3cm := entry_get e "soil_moisture_1_3cm";
     soil_moisture_3_9cm := entry_get e "soil_moisture_3_9cm";
     soil_moisture_9_27cm := entry_get e "soil_moisture_9_27cm";
     soil_moisture_27_81cm := entry_get e "soil_moisture_27_81cm" |}.

(** [db] is the [weather_data] table, in insertion order. *)
Definition save_weather_data (db : list WeatherData) (weather_data : forecast)
    (location_lat location_lon : Q) : list WeatherData :=
  db ++ List.map (weather_record location_lat location_lon) (hourly weather_data).

Definition at_location (lat lon : Q) (r : WeatherData) : bool :=
  Qeqb (location_lat r) lat && Qeqb (location_lon r) lon.

(** [.filter(...).order_by(desc(WeatherData.date)).limit(24).all()]; rows
    of equal date come in the order of the table. *)
Definition latest_records (db : list WeatherData) (lat lon : Q) : list WeatherData :=
  take 24 (sort_desc Z.ltb date (List.filter (at_location lat lon) db)).

Definition get_last_saved_weather (db : list WeatherData) (lat lon : Q)
  : option forecast :=
  match latest_records db lat lon with
  | [] => None
  | (first :: _) as records =>
      Some {| latitude := Some lat;
              longitude := Some lon;
              hourly :=
                List.map
                  (fun r =>
                     {| entry_time := date r;
                        values :=
                          {[ "temperature_2m" := temperature_2m r;
                             "precipitation" := precipitation r ]} |})
                  records;
              daily := [];
              retrieved_at := date first;
              is_offline_data := true |}
  end.

Record WeatherForecastRequest : Type := {
  request_latitude : Q;
  request_longitude : Q;
  request_days : Z
}.

(** Outcome of get_weather_forecast: a forecast, or
    [Exception("Weather data unavailable online and offline: ...")]. *)
Inductive forecast_outcome : Type :=
| Forecast (f : forecast)
| Unavailable.

(** [fetched] is what the [try] block obtains from the provider: the parsed
    answer, or None when anything in the block raises.  [utcnow] is the
    clock read by _process_weather_data. *)
Definition get_weather_forecast (db : list WeatherData)
    (request : WeatherForecastRequest) (fetched : option response) (utcnow : Z)
  : list WeatherData * forecast_outcome :=
  match fetched with
  | Some data =>
      let forecast := _process_weather_data data utcnow in
      (save_weather_data db forecast
         (request_latitude request) (request_longitude request),
       Forecast forecast)
  | None =>
      match get_last_saved_weather db
              (request_latitude request) (request_longitude request) with
      | Some cached_data => (db, Forecast cached_data)
      | None => (db, Unavailable)
      end
  end.

(** predict_suitability: the rule tree on temperature, rain, wind speed
    and humidity. *)
Record verdict : Type := {
  level : Z;
  status : string;
  advice : string
}.

Definition predict_suitability (temp rain wind_speed humidity : Q) : verdict :=
  if Qltb (5 # 10) rain then
    {| level := 0; status := "UNSUITABLE";
       advice := "Rain detected. Risk of washout." |}
  else if Qltb 25 wind_speed then
    {| level := 0; status := "UNSUITABLE";
       advice := "High wind. Risk of spray drift." |}
  else if Qltb 35 temp || Qltb temp 5 then
    {| level := 1; status := "RISKY";
       advice := "Extreme temperature. Crop stress likely." |}
  else if Qleb 18 temp && Qleb temp 28 then
    if Qleb 40 humidity && Qleb humidity 70 && Qltb wind_speed 12 then
      {| level := 3; status := "OPTIMAL";
         advice := "Ideal conditions for maximum efficacy." |}
    else
      {| level := 2; status := "GOOD";
         advice := "Safe conditions, though not perfectly ideal." |}
  else
    {| level := 1; status := "MARGINAL";
       advice := "Conditions are safe but efficacy may be reduced." |}.

End WeatherForecast.

(* ===================================================================== *)
(** * app/financial/partial_budgeting.py: comparison of two states        *)
(* ===================================================================== *)

Module FarmingDecision.
Import PartialBudgeting.




End FarmingDecision.

(* ===================================================================== *)
(** * Specification-side definitions and example data                     *)
(* ===================================================================== *)

Import PartialBudgeting Weather Schemas Engine Scheduling.

(** ** Partial budgeting and resource allocation *)

(** [resources[name]] *)
Definition cost_of (resources : dict) (name : string) : Q :=
  default 0%Q (dict_get resources name).

(** The greedy rule, read off the ranked names: a resource the remaining
    budget covers gets its full cost; the walk goes on while budget is left;
    the first resource that is not covered gets what is left, and the walk
    stops. *)
Inductive greedy (cost : string -> Q) : Q -> list string -> dict -> Prop :=
| greedy_end remaining :
    greedy cost remaining [] []
| greedy_full remaining name names allocation :
    (cost name <= remaining)%Q ->
    (0 < remaining - cost name)%Q ->
    greedy cost (remaining - cost name)%Q names allocation ->
    greedy cost remaining (name :: names) ((name, cost name) :: allocation)
| greedy_exhausted remaining name names :
    (cost name <= remaining)%Q ->
    (remaining - cost name <= 0)%Q ->
    greedy cost remaining (name :: names) [(name, cost name)]
| greedy_partial remaining name names :
    (remaining < cost name)%Q ->
    greedy cost remaining (name :: names) [(name, remaining)].





(** ** Cost estimation *)

(** The per-hectare unit costs as the specification lists them, with the
    default of 1000 per hectare for any other operation type. *)
Definition spec_unit_costs : gmap string Q :=
  list_to_map
    [("land_preparation", 5000); ("planting", 3000); ("fertilization", 2000);
     ("irrigation", 1000); ("pest_control", 1500); ("harvesting", 4000)]%Q.

Definition spec_unit_cost (operation_type : string) : Q :=
  default 1000%Q (spec_unit_costs !! operation_type).


(** ** Weather suitability and window ranking *)

Definition suitable_by_default : suitability :=
  {| is_suitable := true; reasons := []; risks := [] |}.


Definition numeric_precipitation (e : daily_entry) : Prop :=
  precipitation_sum e <> Some None.




(** The raw score with the guard the code has: with requiresDryWeather the
    product is subtracted only for a positive precipitation. *)
Definition guarded_raw_score (dry : bool) (p : Q) (tmax : option Q) : Q :=
  let s := 100%Q in
  let s := if dry then (if Qltb 0 p then (s - p * 20)%Q else s)
           else if Qltb 10 p then (s - 30)%Q else s in
  match tmax with
  | Some t =>
      if Qleb 20 t && Qleb t 30 then (s + 10)%Q
      else if Qltb t 15 || Qltb 35 t then (s - 20)%Q
      else s
  | None => s
  end.

Definition guarded_score (dry : bool) (p : Q) (tmax : option Q) : Q :=
  Qmax 0 (guarded_raw_score dry p tmax).




(** ** Recommendation *)

Definition request_cost (request : DecisionTreeRequest) (field : Field) : Q :=
  _estimate_operation_cost (operation_value (operation_type request))
    (area_hectares field).

(** A window as get_optimal_weather_window builds it: none of the keys of
    predict_optimal_date is set. *)
Definition plain (w : window) : Prop :=
  estimated_cost w = None /\ budget_ok w = None
  /\ predicted_yield_value w = None /\ net_financial_return w = None.


(** ** Example data *)

Definition scenario_C : PartialBudgetingInput :=
  {| added_returns := 1000; reduced_costs := 200;
     added_costs := 500; reduced_returns := 0 |}.

(** allocateBudget({A:100, B:200}, totalBudget=150, no hints). *)
Definition scenario_D_resources : dict := [("A", 100%Q); ("B", 200%Q)].


Definition example_forecast : weather_data :=
  {| daily :=
       [ {| date := 1; precipitation_sum := Some (Some 2%Q);
            temperature_2m_max := Some 25%Q; temperature_2m_min := Some 18%Q |};
         {| date := 2; precipitation_sum := Some (Some 0%Q);
            temperature_2m_max := Some 25%Q; temperature_2m_min := Some 18%Q |};
         {| date := 3; precipitation_sum := None;
            temperature_2m_max := None; temperature_2m_min := None |};
         {| date := 4; precipitation_sum := Some (Some 0%Q);
            temperature_2m_max := Some 28%Q; temperature_2m_min := Some 12%Q |};
         {| date := 90; precipitation_sum := Some None;
            temperature_2m_max := None; temperature_2m_min := None |} ] |}.

Definition rainy_day_3 : daily_entry :=
  {| date := 3; precipitation_sum := Some (Some 12%Q);
     temperature_2m_max := Some 40%Q; temperature_2m_min := Some 5%Q |}.

Definition cold_day_0 : daily_entry :=
  {| date := 0; precipitation_sum := Some (Some 0%Q);
     temperature_2m_max := Some 25%Q; temperature_2m_min := Some 0%Q |}.




Definition example_field : Field :=
  {| id := 1; name := "North plot"; area_hectares := 1;
     crop_type := Some corn; planting_date := Some 0%Z |}.


(** Planting one hectare costs 3000; the budget is 1000. *)
Definition tight_request : DecisionTreeRequest :=
  {| request_field_id := 1; operation_type := planting;
     budget_constraint := Some 1000%Q |}.

(** ** Further relations and example data *)

(** The window of an entry under the dry-weather requirement, against its
    window without the requirement. *)
Definition no_better (w_dry w_any : window) : Prop :=
  window_date w_dry = window_date w_any
  /\ (weather_score w_dry <= weather_score w_any)%Q
  /\ (window_is_suitable w_dry = true -> window_is_suitable w_any = true).

(** [w] carries the weather data of [w0]. *)
Definition same_weather (w0 w : window) : Prop :=
  window_date w = window_date w0
  /\ weather_score w = weather_score w0
  /\ Weather.precipitation w = Weather.precipitation w0.

(** [w] is the window [w0] after the budget pass: cost, a true budget flag,
    the yield estimate at the window's score and the net return. *)
Definition annotated (request : DecisionTreeRequest) (field : Field)
    (w0 w : window) : Prop :=
  same_weather w0 w
  /\ estimated_cost w = Some (request_cost request field)
  /\ budget_ok w = Some true
  /\ net_financial_return w
     = Some (_predict_yield (crop_type field)
               (operation_value (operation_type request))
               (weather_score w0) (area_hectares field)
             - request_cost request field)%Q.

Definition free_request : DecisionTreeRequest :=
  {| request_field_id := 1; operation_type := planting;
     budget_constraint := Some 0%Q |}.

(** Rows and answers of the forecast pipeline. *)
Module ForecastExamples.
Import WeatherForecast.

(** A row written from a processed forecast for the place (lat, lon). *)
Definition fresh_row (lat lon : Q) (r : WeatherData) : Prop :=
  location_lat r = lat /\ location_lon r = lon
  /\ snowfall r = None
  /\ soil_moisture_9_27cm r = None
  /\ soil_moisture_27_81cm r = None.

Definition stored_row_day_5 : WeatherData :=
  {| location_lat := 13; location_lon := 123; date := days 5;
     temperature_2m := Some 27%Q; relative_humidity_2m := None;
     precipitation := Some 0%Q; rain := None; snowfall := None;
     soil_moisture_0_1cm := None; soil_moisture_1_3cm := None;
     soil_moisture_3_9cm := None; soil_moisture_9_27cm := None;
     soil_moisture_27_81cm := None |}.

Definition one_hour_answer : response :=
  {| response_latitude := Some 13%Q;
     response_longitude := Some 123%Q;
     response_hourly :=
       {| time := [days 5];
          columns := {[ "temperature_2m" := [Some 27%Q];
                        "snowfall" := [Some 0%Q] ]} |};
     response_daily := {| time := [5%Z]; columns := ∅ |} |}.

Definition manila_request : WeatherForecastRequest :=
  {| request_latitude := 13; request_longitude := 123; request_days := 7 |}.

End ForecastExamples.

(* ===================================================================== *)
(** * Properties                                                          *)
(* ===================================================================== *)

Import Py.

(** ** Comparisons *)

Lemma Qltb_lt x y : Qltb x y = true <-> (x < y)%Q.
Proof.
  unfold Qltb. rewrite negb_true_iff, <- not_true_iff_false, Qle_bool_iff.
  split; [apply Qnot_le_lt | apply Qlt_not_le].
Qed.

Lemma Qltb_ge x y : Qltb x y = false <-> (y <= x)%Q.
Proof.
  unfold Qltb. rewrite negb_false_iff, Qle_bool_iff. reflexivity.
Qed.

Lemma Qleb_le x y : Qleb x y = true <-> (x <= y)%Q.
Proof. apply Qle_bool_iff. Qed.

Lemma Qleb_gt x y : Qleb x y = false <-> (y < x)%Q.
Proof.
  unfold Qleb. rewrite <- not_true_iff_false, Qle_bool_iff.
  split; [apply Qnot_le_lt | apply Qlt_not_le].
Qed.

Lemma Qeqb_eq x y : Qeqb x y = true <-> (x == y)%Q.
Proof. apply Qeq_bool_iff. Qed.

Lemma Qeqb_neq x y : Qeqb x y = false <-> ~ (x == y)%Q.
Proof.
  unfold Qeqb. rewrite <- not_true_iff_false, Qeq_bool_iff. reflexivity.
Qed.


Lemma max_0_nonneg x : (0 <= max_ 0 x)%Q.
Proof.
  unfold max_. destruct (Qltb 0 x) eqn:E.
  - apply Qltb_lt in E. lra.
  - lra.
Qed.

(** Turns the boolean tests of the embedded code into propositions. *)
Ltac cmp_cases :=
  repeat match goal with
  | |- context [Qltb ?a ?b] =>
      let E := fresh "E" in destruct (Qltb a b) eqn:E;
      [apply Qltb_lt in E | apply Qltb_ge in E]
  | |- context [Qleb ?a ?b] =>
      let E := fresh "E" in destruct (Qleb a b) eqn:E;
      [apply Qleb_le in E | apply Qleb_gt in E]
  | |- context [Qeqb ?a ?b] =>
      let E := fresh "E" in destruct (Qeqb a b) eqn:E;
      [apply Qeqb_eq in E | apply Qeqb_neq in E]
  end.

(** ** The stable descending sort *)

Section SortFacts.
Context {A K : Type} (ltb : K -> K -> bool) (key : A -> K).
Hypothesis ltb_asym : forall a b, ltb a b = true -> ltb b a = false.

Lemma insert_desc_perm x l : Permutation (insert_desc ltb key x l) (x :: l).
Proof.
  induction l as [|y l IH]; simpl; [reflexivity|].
  destruct (ltb (key x) (key y)); [|reflexivity].
  rewrite IH. apply perm_swap.
Qed.

Lemma sort_desc_perm l : Permutation (sort_desc ltb key l) l.
Proof.
  induction l as [|x l IH]; simpl; [reflexivity|].
  rewrite insert_desc_perm. now apply perm_skip.
Qed.

Lemma insert_desc_hd x y l :
  desc ltb key y x -> HdRel (desc ltb key) y l -> HdRel (desc ltb key) y (insert_desc ltb key x l).
Proof.
  intros Hyx Hl. destruct l as [|z l]; simpl.
  - now constructor.
  - destruct (ltb (key x) (key z)); constructor; [|assumption].
    now inversion Hl.
Qed.

Lemma insert_desc_sorted x l :
  Sorted (desc ltb key) l -> Sorted (desc ltb key) (insert_desc ltb key x l).
Proof.
  induction 1 as [|y l Hs IH Hhd]; simpl.
  - repeat constructor.
  - destruct (ltb (key x) (key y)) eqn:E.
    + constructor; [exact IH|].
      apply insert_desc_hd; [|exact Hhd]. now apply ltb_asym.
    + constructor; [now constructor|]. now constructor.
Qed.

Lemma sort_desc_sorted l : Sorted (desc ltb key) (sort_desc ltb key l).
Proof.
  induction l as [|x l IH]; simpl; [constructor|].
  now apply insert_desc_sorted.
Qed.

(** Stability: elements whose keys are pairwise tied keep their order. *)
Section Stable.
Variable P : A -> bool.
Hypothesis P_tied :
  forall a b, P a = true -> P b = true -> ltb (key a) (key b) = false.



End Stable.

Lemma sort_desc_length l : length (sort_desc ltb key l) = length l.
Proof. apply Permutation_length, sort_desc_perm. Qed.

Lemma sort_desc_nil l : sort_desc ltb key l = [] -> l = [].
Proof.
  intros H. apply (f_equal (@length A)) in H.
  rewrite sort_desc_length in H. now destruct l.
Qed.

End SortFacts.

Lemma Qltb_asym a b : Qltb a b = true -> Qltb b a = false.
Proof. rewrite Qltb_lt, Qltb_ge. lra. Qed.

Lemma pair_ltb_asym a b : pair_ltb a b = true -> pair_ltb b a = false.
Proof.
  destruct a as [a1 a2], b as [b1 b2]. unfold pair_ltb. simpl.
  cmp_cases; simpl; try reflexivity; try discriminate; intros _; lra.
Qed.

(** ** Partial budgeting: net benefit *)

Import PartialBudgeting.

(** C7.  For all four inputs, calculate_net_benefit returns
    netBenefit = (addedReturns + reducedCosts) - (addedCosts + reducedReturns)
    and isProfitable = (netBenefit > 0); the recommendation is the "proceed"
    sentence carrying the value when netBenefit > 0, the "neutral" sentence
    when netBenefit is 0, and the "do not proceed" sentence carrying the
    absolute loss when netBenefit < 0. *)
Theorem calculate_net_benefit_spec (i : PartialBudgetingInput) :
  let r := calculate_net_benefit i in
  net_benefit r
    = ((added_returns i + reduced_costs i) - (added_costs i + reduced_returns i))%Q
  /\ (is_profitable r = true <-> (0 < net_benefit r)%Q)
  /\ ((0 < net_benefit r)%Q ->
      recommendation r =
        "Proceed with the change. Expected net benefit: "
          +:+ format_2f (net_benefit r) +:+ " PHP")
  /\ ((net_benefit r == 0)%Q ->
      recommendation r =
        "The change is neutral. Consider other factors before proceeding.")
  /\ ((net_benefit r < 0)%Q ->
      recommendation r =
        "Do not proceed. Expected net loss: "
          +:+ format_2f (Qabs (net_benefit r)) +:+ " PHP").
Proof.
  cbn zeta. unfold calculate_net_benefit; cbn [net_benefit is_profitable recommendation].
  set (nb := (_ - _)%Q).
  split; [reflexivity|]. split; [apply Qltb_lt|].
  repeat split; intros H; cmp_cases; try reflexivity; lra.
Qed.

Lemma calculate_net_benefit_scenario_C :
  (0 < net_benefit (calculate_net_benefit scenario_C))%Q
  /\ is_profitable (calculate_net_benefit scenario_C) = true
  /\ recommendation (calculate_net_benefit scenario_C)
     = "Proceed with the change. Expected net benefit: 700.00 PHP".
Proof.
  destruct (calculate_net_benefit_spec scenario_C) as (_ & Hp & Hr & _).
  assert (Hpos : (0 < net_benefit (calculate_net_benefit scenario_C))%Q)
    by (vm_compute; reflexivity).
  split; [exact Hpos|]. split; [now apply Hp|].
  rewrite (Hr Hpos). vm_compute. reflexivity.
Defined.

(** C8.  Exchanging addedReturns with reducedReturns and reducedCosts with
    addedCosts negates the net benefit. *)
Theorem net_benefit_antisymmetric (i : PartialBudgetingInput) :
  (net_benefit (calculate_net_benefit (swap_roles i))
   == - net_benefit (calculate_net_benefit i))%Q.
Proof.
  unfold calculate_net_benefit, swap_roles; cbn. ring.
Qed.

(** ** Cost and yield estimators *)

Import Weather Schemas Engine.

Lemma cost_estimates_fmap area :
  cost_estimates area = (fun u => u * area)%Q <$> spec_unit_costs.
Proof.
  unfold spec_unit_costs. rewrite <- list_to_map_fmap. reflexivity.
Qed.

Lemma estimate_operation_cost_unit op area :
  _estimate_operation_cost op area = (spec_unit_cost op * area)%Q.
Proof.
  unfold _estimate_operation_cost, spec_unit_cost.
  rewrite cost_estimates_fmap, lookup_fmap.
  now destruct (spec_unit_costs !! op).
Qed.


Lemma spec_unit_cost_pos op : (0 < spec_unit_cost op)%Q.
Proof.
  unfold spec_unit_cost.
  destruct (spec_unit_costs !! op) as [u|] eqn:E; [|reflexivity].
  unfold spec_unit_costs in E.
  apply elem_of_list_to_map_2 in E.
  repeat (apply elem_of_cons in E as [E|E]; [injection E as _ ->; reflexivity|]).
  now apply elem_of_nil in E.
Qed.



Lemma estimate_operation_cost_negative op a :
  (a < 0)%Q -> (_estimate_operation_cost op a < 0)%Q.
Proof.
  intros Ha. rewrite estimate_operation_cost_unit.
  pose proof (spec_unit_cost_pos op) as Hu.
  nra.
Qed.

(** C4, as the code has it.  Neither estimator validates its area: for every
    area, negative ones included, the cost estimator returns unit cost times
    area (a negative amount for a negative area) and the yield estimator
    returns base yield x area x impact x (0.5 + score/100); neither raises. *)
Theorem estimators_return_for_every_area
    (crop : option CropTypeEnum) (op : string) (score a : Q) :
  call_estimate_operation_cost op a = Returns (spec_unit_cost op * a)%Q
  /\ call_predict_yield crop op score a
     = Returns (base_yields crop * a * default (1 # 10)%Q (impact_factors !! op)
                * ((5 # 10) + score / 100))%Q
  /\ ((a < 0)%Q -> (_estimate_operation_cost op a < 0)%Q).
Proof.
  split; [|split].
  - unfold call_estimate_operation_cost.
    now rewrite estimate_operation_cost_unit.
  - reflexivity.
  - apply estimate_operation_cost_negative.
Qed.

Lemma estimators_return_for_every_area_example :
  call_estimate_operation_cost "harvesting" (- (1 # 2))
    = Returns (spec_unit_cost "harvesting" * - (1 # 2))%Q
  /\ (_estimate_operation_cost "harvesting" (- (1 # 2)) < 0)%Q.
Proof.
  destruct (estimators_return_for_every_area (Some rice) "harvesting" 90
              (- (1 # 2))) as (Hc & _ & Hn).
  split; [exact Hc|]. apply Hn. reflexivity.
Defined.

(** C4 as stated fails: on the negative area -1 both estimators return a
    number instead of failing. *)
Lemma estimators_negative_area_no_error :
  (-1 < 0)%Q
  /\ call_estimate_operation_cost "planting" (-1) = Returns (-3000)%Q
  /\ (exists v, call_predict_yield (Some corn) "planting" 100 (-1) = Returns v
                /\ (v == -6750)%Q)
  /\ ~ (forall op a, (a < 0)%Q ->
          exists e, call_estimate_operation_cost op a = Raises e).
Proof.
  split; [reflexivity|]. split; [reflexivity|]. split.
  - eexists. split; [reflexivity|]. vm_compute. reflexivity.
  - intros H. destruct (H "planting" (-1)%Q) as [e He]; [reflexivity|].
    discriminate He.
Qed.

(** ** Weather suitability of a single day *)

Lemma check_loop_absent str target dry entries s :
  Forall (fun e => date e <> target) entries ->
  check_loop str target dry entries s = Returns s.
Proof.
  induction 1 as [|e l He _ IH]; [reflexivity|].
  cbn [check_loop]. destruct (Z.eqb_spec (date e) target); [contradiction|].
  exact IH.
Qed.

(** C10.  When no entry of the forecast's daily list carries the requested
    date (in particular when the list is empty), check_weather_suitability
    returns isSuitable = true with empty reasons and risks, whatever
    requires_dry_weather is. *)
Theorem check_weather_suitability_absent_day
    (str : Q -> string) (wd : weather_data) (d : datetime) (dry : bool) :
  Forall (fun e => date e <> strftime_ymd d) (daily wd) ->
  check_weather_suitability str wd d dry = Returns suitable_by_default.
Proof.
  intros H. unfold check_weather_suitability. now apply check_loop_absent.
Qed.

Lemma check_weather_suitability_absent_day_example :
  check_weather_suitability format_2f {| daily := [rainy_day_3] |}
    (days 5 + 3600) true
  = Returns suitable_by_default
  /\ check_weather_suitability format_2f {| daily := [] |} 0 true
     = Returns suitable_by_default.
Proof.
  split.
  - apply (check_weather_suitability_absent_day format_2f
             {| daily := [rainy_day_3] |} (days 5 + 3600) true).
    repeat constructor. vm_compute. discriminate.
  - apply (check_weather_suitability_absent_day format_2f {| daily := [] |} 0 true).
    constructor.
Defined.


(** C5 at a day whose minimum temperature is 0: the entry matches the
    requested date and 0 < 10, yet no temperature-stress risk is reported,
    because [temp_min and temp_min < 10] treats the number 0 as "no value". *)
Theorem check_weather_suitability_zero_min_temperature :
  check_weather_suitability format_2f {| daily := [cold_day_0] |} 0 false
  = Returns {| is_suitable := true; reasons := []; risks := [] |}.
Proof. reflexivity. Qed.

(** The same day one degree warmer is reported as cold. *)
Lemma check_weather_suitability_one_degree :
  check_weather_suitability format_2f
    {| daily := [ {| date := 0; precipitation_sum := Some (Some 0%Q);
                     temperature_2m_max := Some 25%Q;
                     temperature_2m_min := Some 1%Q |} ] |} 0 false
  = Returns {| is_suitable := true; reasons := [];
               risks := ["Low temperature stress"] |}.
Proof. reflexivity. Qed.

(** ** Ranking of weather windows *)

Lemma in_range_spec s e d :
  in_range s e d = true <-> (s <= fromisoformat (date d) <= e)%Z.
Proof. unfold in_range. rewrite andb_true_iff, !Z.leb_le. reflexivity. Qed.








(** The ranking of the example: days 2 and 4 tie at 110 and keep their
    order, day 3 scores 100, day 1 scores 70. *)
Lemma get_optimal_weather_window_example_order :
  (fun ws => List.map (fun w => (strftime_ymd (window_date w),
                                 Qred (weather_score w),
                                 window_is_suitable w)) ws)
    <$> get_optimal_weather_window example_forecast 0 (days 30) true
  = Returns [(2, 110%Q, true); (4, 110%Q, true); (3, 100%Q, true); (1, 70%Q, true)]%Z.
Proof. vm_compute. reflexivity. Qed.

(** A single in-range day with precipitation 12 and no dry-weather
    requirement scores 100 - 30 = 70 and is suitable, exactly at the
    threshold. *)
Lemma get_optimal_weather_window_threshold_day :
  (fun ws => List.map (fun w => (Qred (weather_score w), window_is_suitable w)) ws)
    <$> get_optimal_weather_window
          {| daily := [ {| date := 1; precipitation_sum := Some (Some 12%Q);
                           temperature_2m_max := None;
                           temperature_2m_min := None |} ] |}
          0 (days 30) false
  = Returns [(70%Q, true)].
Proof. vm_compute. reflexivity. Qed.

(** With no rain and a max temperature within [20, 30], the dry-weather
    score is exactly 110. *)
Lemma guarded_score_dry_ideal t :
  (20 <= t <= 30)%Q -> (guarded_score true 0 (Some t) == 110)%Q.
Proof.
  intros [H1 H2]. unfold guarded_score, guarded_raw_score. cbn.
  apply Qleb_le in H1, H2. rewrite H1, H2. cbn. reflexivity.
Qed.


(** ** Recommendation under an exceeded budget *)

Section AlreadySorted.
Context {A K : Type} (ltb : K -> K -> bool) (key : A -> K).

Lemma insert_desc_head x l :
  HdRel (desc ltb key) x l -> insert_desc ltb key x l = x :: l.
Proof.
  intros [|y l' Hxy]; [reflexivity|]. cbn. unfold desc in Hxy. now rewrite Hxy.
Qed.

Lemma sort_desc_sorted_id l :
  Sorted (desc ltb key) l -> sort_desc ltb key l = l.
Proof.
  induction 1 as [|x l _ IH Hhd]; [reflexivity|].
  cbn [sort_desc foldr]. fold (sort_desc ltb key l). rewrite IH.
  now apply insert_desc_head.
Qed.

End AlreadySorted.

Lemma collect_windows_plain s e dry entries ws :
  collect_windows s e dry entries = Returns ws -> Forall plain ws.
Proof.
  revert ws. induction entries as [|d l IH]; intros ws; cbn [collect_windows].
  - intros [= <-]. constructor.
  - destruct (in_range s e d); [|apply IH].
    unfold score_entry.
    destruct (as_number _) as [p|]; cbn; [|discriminate].
    destruct (collect_windows s e dry l) as [ws'|]; cbn; [|discriminate].
    intros [= <-]. constructor; [repeat split|now apply IH].
Qed.

Lemma get_optimal_weather_window_shape wd s e dry ws :
  get_optimal_weather_window wd s e dry = Returns ws ->
  Forall plain ws /\ Sorted (desc Qltb weather_score) ws.
Proof.
  unfold get_optimal_weather_window.
  destruct (collect_windows s e dry (daily wd)) as [un|] eqn:Hun; cbn;
    [|discriminate].
  intros [= <-]. split.
  - rewrite (sort_desc_perm Qltb weather_score un).
    eapply collect_windows_plain, Hun.
  - apply sort_desc_sorted, Qltb_asym.
Qed.









(** ** Schedule generation *)

Import Scheduling.

Lemma score_entry_outcome dry d e :
  (numeric_precipitation e /\ exists w, score_entry dry d e = Returns w)
  \/ (precipitation_sum e = Some None
      /\ score_entry dry d e = Raises TypeError).
Proof.
  unfold score_entry, numeric_precipitation.
  destruct (precipitation_sum e) as [[p|]|]; cbn.
  - left. split; [discriminate|]. eexists. reflexivity.
  - right. split; reflexivity.
  - left. split; [discriminate|]. eexists. reflexivity.
Qed.

Lemma collect_windows_outcome s e dry entries :
  (Forall (fun d => in_range s e d = true -> numeric_precipitation d) entries
   /\ exists ws, collect_windows s e dry entries = Returns ws)
  \/ (Exists (fun d => in_range s e d = true /\ precipitation_sum d = Some None)
        entries
      /\ collect_windows s e dry entries = Raises TypeError).
Proof.
  induction entries as [|d l IH]; cbn [collect_windows].
  - left. split; [constructor|]. now exists [].
  - destruct (in_range s e d) eqn:Hin.
    + destruct (score_entry_outcome dry (fromisoformat (Weather.date d)) d)
        as [(Hnum & w & ->)|(Hnone & ->)]; cbn.
      * destruct IH as [(Hall & ws & ->)|(Hex & ->)]; cbn.
        -- left. split; [constructor; auto|]. now eexists.
        -- right. split; [now apply Exists_cons_tl|reflexivity].
      * right. split; [|reflexivity]. apply Exists_cons_hd. now split.
    + destruct IH as [(Hall & ws & Hws)|(Hex & Hr)].
      * left. split; [constructor; [intros H; congruence|exact Hall]|].
        now exists ws.
      * right. split; [now apply Exists_cons_tl|exact Hr].
Qed.

Lemma ranking_error wd s e dry err :
  get_optimal_weather_window wd s e dry = Raises err -> err = TypeError.
Proof.
  unfold get_optimal_weather_window.
  destruct (collect_windows_outcome s e dry (Weather.daily wd))
    as [(_ & ws & ->)|(_ & ->)]; cbn; [discriminate|now intros [= <-]].
Qed.

Lemma check_weather_suitability_error str wd d dry err :
  check_weather_suitability str wd d dry = Raises err -> err = TypeError.
Proof.
  unfold check_weather_suitability.
  generalize {| is_suitable := true; reasons := []; risks := [] |} as s0.
  induction (Weather.daily wd) as [|e l IH]; intros s0; cbn [check_loop].
  - discriminate.
  - destruct (Weather.date e =? strftime_ymd d)%Z; [|apply IH].
    unfold check_entry. destruct dry; cbn.
    + destruct (default (Some 0%Q) (precipitation_sum e)) as [p|]; cbn.
      * discriminate.
      * now intros [= <-].
    + discriminate.
Qed.








(** ** Resource allocation *)

Lemma dict_set_fresh (d : dict) k v :
  k ∉ List.map fst d -> dict_set d k v = d ++ [(k, v)].
Proof.
  induction d as [|[k' v'] d IH]; intros Hk; [reflexivity|].
  cbn in *. apply not_elem_of_cons in Hk as [Hne Hk].
  destruct (String.eqb_spec k' k) as [->|_]; [contradiction|].
  now rewrite IH.
Qed.

Lemma allocate_greedy resources sorted :
  forall remaining acc,
  NoDup (List.map fst sorted) ->
  (forall k, k ∈ List.map fst sorted -> k ∉ List.map fst acc) ->
  exists allocation,
    allocate resources sorted remaining acc = acc ++ allocation
    /\ greedy (cost_of resources) remaining (List.map fst sorted) allocation.
Proof.
  induction sorted as [|[name r] rest IH]; intros rem acc Hnd Hfresh.
  - exists []. cbn. rewrite app_nil_r. split; [reflexivity|constructor].
  - cbn [allocate List.map fst] in *. fold (cost_of resources name).
    apply NoDup_cons in Hnd as [Hname Hnd].
    assert (Hacc : name ∉ List.map fst acc) by (apply Hfresh; left).
    destruct (Qleb (cost_of resources name) rem) eqn:Hcov.
    + apply Qleb_le in Hcov. rewrite (dict_set_fresh _ _ _ Hacc).
      destruct (Qleb (rem - cost_of resources name) 0) eqn:Hleft.
      * apply Qleb_le in Hleft. eexists. split; [reflexivity|].
        now apply greedy_exhausted.
      * apply Qleb_gt in Hleft.
        destruct (IH (rem - cost_of resources name)%Q
                    (acc ++ [(name, cost_of resources name)]) Hnd)
          as (alloc & Heq & Hg).
        { intros k Hk. rewrite map_app, elem_of_app. cbn.
          intros [Hin|Hin]; [now apply (Hfresh k); [right|]|].
          apply list_elem_of_singleton in Hin as ->. contradiction. }
        exists ((name, cost_of resources name) :: alloc).
        rewrite Heq, <- app_assoc. split; [reflexivity|].
        now apply greedy_full.
    + apply Qleb_gt in Hcov. rewrite (dict_set_fresh _ _ _ Hacc).
      change (Qleb 0 0) with true. cbn iota.
      eexists. split; [reflexivity|]. now apply greedy_partial.
Qed.


Lemma ratios_names resources constraints :
  List.map fst (ratios resources constraints) = List.map fst resources.
Proof. unfold ratios. rewrite List.map_map. reflexivity. Qed.




Lemma cost_of_lookup (resources : dict) name c :
  NoDup (List.map fst resources) ->
  (name, c) ∈ resources -> cost_of resources name = c.
Proof.
  unfold cost_of, dict_get.
  induction resources as [|[k v] l IH]; intros Hnd Hin.
  - now apply elem_of_nil in Hin.
  - cbn in *. apply NoDup_cons in Hnd as [Hk Hnd].
    destruct (String.eqb_spec k name) as [->|Hne].
    + apply elem_of_cons in Hin as [[= ->]|Hin]; [reflexivity|].
      exfalso. apply Hk. apply list_elem_of_fmap. now exists (name, c).
    + apply elem_of_cons in Hin as [[= -> ->]|Hin]; [contradiction|].
      now apply IH.
Qed.




(* ===================================================================== *)
(** * Further properties of the services                                  *)
(* ===================================================================== *)

(** ** The rule tree predict_suitability *)

(** X1.  predict_suitability gives level 0 exactly when rain exceeds 0.5 or
    the wind speed exceeds 25, whatever the temperature and the humidity;
    the status is "UNSUITABLE" exactly at level 0, and the level always lies
    between 0 and 3. *)
Theorem predict_suitability_veto (temp rain wind_speed humidity : Q) :
  let v := WeatherForecast.predict_suitability temp rain wind_speed humidity in
  (WeatherForecast.level v = 0%Z <-> (5 # 10 < rain)%Q \/ (25 < wind_speed)%Q)
  /\ (WeatherForecast.status v = "UNSUITABLE" <-> WeatherForecast.level v = 0%Z)
  /\ (0 <= WeatherForecast.level v <= 3)%Z.
Proof.
  cbn zeta. unfold WeatherForecast.predict_suitability.
  cmp_cases; cbn; repeat split; intros; try lia; try discriminate;
    try (left; assumption); try (right; assumption);
    match goal with H : _ \/ _ |- _ => destruct H; lra end.
Qed.

(** X2.  predict_suitability answers "OPTIMAL" (level 3) exactly when rain
    is at most 0.5, the wind speed is below 12, the temperature lies within
    [18, 28] and the humidity within [40, 70]. *)
Theorem predict_suitability_optimal (temp rain wind_speed humidity : Q) :
  let v := WeatherForecast.predict_suitability temp rain wind_speed humidity in
  (WeatherForecast.status v = "OPTIMAL" <-> WeatherForecast.level v = 3%Z)
  /\ (WeatherForecast.level v = 3%Z <->
      (rain <= 5 # 10)%Q /\ (wind_speed < 12)%Q
      /\ (18 <= temp <= 28)%Q /\ (40 <= humidity <= 70)%Q).
Proof.
  cbn zeta. unfold WeatherForecast.predict_suitability.
  cmp_cases; cbn; repeat split; intros; try lia; try discriminate; try lra;
    repeat match goal with H : _ /\ _ |- _ => destruct H end; lra.
Qed.

(** ** Scores and windows *)

Lemma raw_score_le_110 dry p tmax : (raw_score dry p tmax <= 110)%Q.
Proof.
  unfold raw_score, and_then.
  destruct dry, tmax as [t|]; cmp_cases; cbn; lra.
Qed.

Lemma score_entry_bounds dry d e w :
  score_entry dry d e = Returns w ->
  window_date w = d /\ (0 <= weather_score w <= 110)%Q.
Proof.
  unfold score_entry. destruct (as_number _) as [p|]; cbn; [|discriminate].
  intros [= <-]. cbn. split; [reflexivity|].
  pose proof (raw_score_le_110 dry p (temperature_2m_max e)).
  unfold max_. cmp_cases; lra.
Qed.

Lemma collect_windows_bounds s e dry entries ws :
  collect_windows s e dry entries = Returns ws ->
  Forall (fun w => (s <= window_date w <= e)%Z
                   /\ (0 <= weather_score w <= 110)%Q) ws.
Proof.
  revert ws. induction entries as [|d l IH]; intros ws; cbn [collect_windows].
  - intros [= <-]. constructor.
  - destruct (in_range s e d) eqn:Hin; [|apply IH].
    destruct (score_entry dry _ d) as [w|] eqn:Hw; cbn; [|discriminate].
    destruct (collect_windows s e dry l) as [ws'|]; cbn; [|discriminate].
    intros [= <-]. constructor; [|now apply IH].
    apply score_entry_bounds in Hw as [-> Hb].
    split; [now apply in_range_spec|exact Hb].
Qed.

Lemma ranking_bounds wd s e dry ws :
  get_optimal_weather_window wd s e dry = Returns ws ->
  Forall (fun w => (s <= window_date w <= e)%Z
                   /\ (0 <= weather_score w <= 110)%Q) ws.
Proof.
  unfold get_optimal_weather_window.
  destruct (collect_windows s e dry (daily wd)) as [un|] eqn:Hun; cbn;
    [|discriminate].
  intros [= <-]. rewrite (sort_desc_perm Qltb weather_score un).
  eapply collect_windows_bounds, Hun.
Qed.

(** X3.  Every window returned by get_optimal_weather_window is dated within
    [start_date, end_date] and has a score between 0 and 110. *)
Theorem get_optimal_weather_window_bounds
    (wd : weather_data) (s e : datetime) (dry : bool) (ws : list window) :
  get_optimal_weather_window wd s e dry = Returns ws ->
  Forall (fun w => (s <= window_date w <= e)%Z
                   /\ (0 <= weather_score w <= 110)%Q) ws.
Proof.
  unfold get_optimal_weather_window.
  destruct (collect_windows s e dry (daily wd)) as [un|] eqn:Hun; cbn;
    [|discriminate].
  intros [= <-]. rewrite (sort_desc_perm Qltb weather_score un).
  eapply collect_windows_bounds, Hun.
Qed.

Lemma get_optimal_weather_window_bounds_example :
  exists ws,
    get_optimal_weather_window example_forecast 0 (days 30) true = Returns ws
    /\ Forall (fun w => (0 <= window_date w <= days 30)%Z
                        /\ (0 <= weather_score w <= 110)%Q) ws.
Proof.
  eexists. split; [reflexivity|].
  apply (get_optimal_weather_window_bounds example_forecast 0 (days 30) true).
  reflexivity.
Defined.

Lemma collect_windows_none s e dry entries :
  collect_windows s e dry entries = Returns []
  <-> List.filter (in_range s e) entries = [].
Proof.
  induction entries as [|d l IH]; cbn [collect_windows List.filter];
    [tauto|].
  destruct (in_range s e d); [|exact IH].
  split; [|discriminate].
  destruct (score_entry dry _ d) as [w|]; cbn; [|discriminate].
  destruct (collect_windows s e dry l) as [ws'|]; cbn; discriminate.
Qed.

Lemma get_optimal_weather_window_none wd s e dry :
  get_optimal_weather_window wd s e dry = Returns []
  <-> List.filter (in_range s e) (daily wd) = [].
Proof.
  rewrite <- (collect_windows_none s e dry).
  unfold get_optimal_weather_window.
  destruct (collect_windows s e dry (daily wd)) as [un|err]; cbn.
  - split.
    + intros [= H]. apply sort_desc_nil in H. now subst.
    + intros [= ->]. reflexivity.
  - split; discriminate.
Qed.

(** X4.  get_optimal_weather_window returns the empty list exactly when no
    daily entry is dated within the range, whatever requires_dry_weather is.
    So a ranking that is empty under the dry-weather requirement is empty
    without it as well: asking again without the requirement, as a caller
    may do on an empty answer, cannot produce a window. *)
Theorem ranking_empty_iff_no_entry_in_range
    (wd : weather_data) (s e : datetime) :
  (forall dry,
     get_optimal_weather_window wd s e dry = Returns []
     <-> List.filter (in_range s e) (daily wd) = [])
  /\ (get_optimal_weather_window wd s e true = Returns []
      <-> get_optimal_weather_window wd s e false = Returns []).
Proof.
  split; [intros dry; apply get_optimal_weather_window_none|].
  now rewrite !get_optimal_weather_window_none.
Qed.

Lemma raw_score_dry_le p tmax :
  (raw_score true p tmax <= raw_score false p tmax)%Q.
Proof.
  unfold raw_score, and_then. destruct tmax as [t|]; cmp_cases; cbn; lra.
Qed.

Lemma max_0_mono x y : (x <= y)%Q -> (max_ 0 x <= max_ 0 y)%Q.
Proof. intros H. unfold max_. cmp_cases; lra. Qed.

Lemma score_entry_dry_no_better d e w :
  score_entry true d e = Returns w ->
  exists w', score_entry false d e = Returns w' /\ no_better w w'.
Proof.
  unfold score_entry. destruct (as_number _) as [p|]; cbn; [|discriminate].
  intros [= <-]. eexists. split; [reflexivity|].
  pose proof (raw_score_dry_le p (temperature_2m_max e)) as Hle.
  repeat split; cbn.
  - now apply max_0_mono.
  - rewrite !Qleb_le. lra.
Qed.

Lemma collect_windows_dry_no_better s e entries ws :
  collect_windows s e true entries = Returns ws ->
  exists ws', collect_windows s e false entries = Returns ws'
              /\ Forall2 no_better ws ws'.
Proof.
  revert ws. induction entries as [|d l IH]; intros ws; cbn [collect_windows].
  - intros [= <-]. exists []. split; [reflexivity|constructor].
  - destruct (in_range s e d); [|apply IH].
    destruct (score_entry true _ d) as [w|] eqn:Hw; cbn; [|discriminate].
    destruct (collect_windows s e true l) as [ws1|]; cbn; [|discriminate].
    intros [= <-].
    apply score_entry_dry_no_better in Hw as (w' & -> & Hnb).
    destruct (IH ws1 eq_refl) as (ws' & -> & Hall). cbn.
    exists (w' :: ws'). split; [reflexivity|now constructor].
Qed.

Lemma Forall2_no_better_suitable ws ws' :
  Forall2 no_better ws ws' ->
  (length (List.filter window_is_suitable ws)
   <= length (List.filter window_is_suitable ws'))%nat.
Proof.
  induction 1 as [|w w' l l' (_ & _ & Hs) _ IH]; [reflexivity|].
  cbn. destruct (window_is_suitable w).
  - rewrite (Hs eq_refl). cbn. lia.
  - destruct (window_is_suitable w'); cbn; lia.
Qed.

Lemma Permutation_filter_length {A} (f : A -> bool) (l l' : list A) :
  Permutation l l' -> length (List.filter f l) = length (List.filter f l').
Proof.
  induction 1 as [|x l l' _ IH|x y l|l1 l2 l3 _ IH1 _ IH2]; cbn.
  - reflexivity.
  - destruct (f x); cbn; now rewrite IH.
  - destruct (f x), (f y); reflexivity.
  - now rewrite IH1.
Qed.

(** X5.  Whenever the ranking under the dry-weather requirement returns, so
    does the ranking without it, with the same number of windows and at
    least as many suitable ones: entry by entry the score without the
    requirement is at least the score with it. *)
Theorem dry_requirement_never_helps
    (wd : weather_data) (s e : datetime) (ws : list window) :
  get_optimal_weather_window wd s e true = Returns ws ->
  exists ws',
    get_optimal_weather_window wd s e false = Returns ws'
    /\ length ws' = length ws
    /\ (length (List.filter window_is_suitable ws)
        <= length (List.filter window_is_suitable ws'))%nat.
Proof.
  unfold get_optimal_weather_window.
  destruct (collect_windows s e true (daily wd)) as [un|] eqn:Hun; cbn;
    [|discriminate].
  intros [= <-].
  destruct (collect_windows_dry_no_better _ _ _ _ Hun) as (un' & -> & Hall).
  cbn. eexists. split; [reflexivity|].
  rewrite !sort_desc_length. split.
  - symmetry. eapply Forall2_length, Hall.
  - rewrite (Permutation_filter_length _ _ _ (sort_desc_perm Qltb weather_score un)).
    rewrite (Permutation_filter_length _ _ _ (sort_desc_perm Qltb weather_score un')).
    now apply Forall2_no_better_suitable.
Qed.

Lemma dry_requirement_never_helps_example :
  exists ws ws',
    get_optimal_weather_window example_forecast 0 (days 30) true = Returns ws
    /\ get_optimal_weather_window example_forecast 0 (days 30) false = Returns ws'
    /\ length ws' = length ws
    /\ (length (List.filter window_is_suitable ws)
        <= length (List.filter window_is_suitable ws'))%nat.
Proof.
  eexists.
  destruct (dry_requirement_never_helps example_forecast 0 (days 30) _ eq_refl)
    as (ws' & H1 & H2 & H3).
  exists ws'. split; [reflexivity|]. auto.
Defined.

Lemma raw_score_antitone dry p1 p2 tmax :
  (p1 <= p2)%Q -> (raw_score dry p2 tmax <= raw_score dry p1 tmax)%Q.
Proof.
  intros Hp. unfold raw_score, and_then.
  destruct dry, tmax as [t|]; cmp_cases; cbn; nra.
Qed.

(** X6.  More rain never improves a day.  For two forecasts of a single
    daily entry each, of the same date within the range and the same max
    temperature, with numeric precipitations p1 <= p2,
    get_optimal_weather_window returns one window for each, and the window
    of the wetter day has a score no higher than that of the other and is
    suitable only if the other is; with and without the dry-weather
    requirement. *)
Theorem score_antitone_in_precipitation
    (dry : bool) (s e : datetime) (e1 e2 : daily_entry) (p1 p2 : Q) :
  in_range s e e1 = true ->
  date e2 = date e1 ->
  precipitation_sum e1 = Some (Some p1) ->
  precipitation_sum e2 = Some (Some p2) ->
  temperature_2m_max e2 = temperature_2m_max e1 ->
  (p1 <= p2)%Q ->
  exists w1 w2,
    get_optimal_weather_window {| daily := [e1] |} s e dry = Returns [w1]
    /\ get_optimal_weather_window {| daily := [e2] |} s e dry = Returns [w2]
    /\ (weather_score w2 <= weather_score w1)%Q
    /\ (window_is_suitable w2 = true -> window_is_suitable w1 = true).
Proof.
  intros Hin Hdate H1 H2 Ht Hp.
  assert (Hin2 : in_range s e e2 = true).
  { unfold in_range in *. now rewrite Hdate. }
  unfold get_optimal_weather_window. cbn [daily collect_windows].
  rewrite Hin, Hin2. unfold score_entry. rewrite H1, H2, Ht. cbn.
  eexists. eexists. split; [reflexivity|]. split; [reflexivity|]. cbn.
  pose proof (raw_score_antitone dry p1 p2 (temperature_2m_max e1) Hp) as Hraw.
  split; [now apply max_0_mono|]. rewrite !Qleb_le. lra.
Qed.

Lemma score_antitone_in_precipitation_example :
  exists w1 w2,
    get_optimal_weather_window
      {| daily := [ {| date := 1; precipitation_sum := Some (Some 1%Q);
                       temperature_2m_max := Some 25%Q;
                       temperature_2m_min := None |} ] |}
      0 (days 30) true = Returns [w1]
    /\ get_optimal_weather_window
         {| daily := [ {| date := 1; precipitation_sum := Some (Some 3%Q);
                          temperature_2m_max := Some 25%Q;
                          temperature_2m_min := None |} ] |}
         0 (days 30) true = Returns [w2]
    /\ (weather_score w2 <= weather_score w1)%Q
    /\ (window_is_suitable w2 = true -> window_is_suitable w1 = true).
Proof.
  apply (score_antitone_in_precipitation true 0 (days 30) _ _ 1 3);
    try reflexivity. discriminate.
Defined.

(** ** Suitability of a single day *)

Lemma check_entry_not_dry str e s :
  exists s', check_entry str false e s = Returns s'
             /\ is_suitable s' = is_suitable s /\ reasons s' = reasons s.
Proof.
  unfold check_entry. cbn.
  destruct (and_then (temperature_2m_max e) _),
           (and_then (temperature_2m_min e) _);
    eexists; (split; [reflexivity|]); split; reflexivity.
Qed.

Lemma check_loop_not_dry str target entries s :
  exists s', check_loop str target false entries s = Returns s'
             /\ is_suitable s' = is_suitable s /\ reasons s' = reasons s.
Proof.
  induction entries as [|e l IH]; cbn [check_loop].
  - exists s. repeat split.
  - destruct (date e =? target)%Z; [apply check_entry_not_dry|exact IH].
Qed.

(** X7.  Without the dry-weather requirement check_weather_suitability
    never raises and never rejects a day: it returns is_suitable = true with
    no reasons, for every forecast, also one whose precipitation is None. *)
Theorem check_weather_suitability_not_dry
    (str : Q -> string) (wd : weather_data) (d : datetime) :
  exists s,
    check_weather_suitability str wd d false = Returns s
    /\ is_suitable s = true /\ reasons s = [].
Proof.
  unfold check_weather_suitability. apply check_loop_not_dry.
Qed.




(** ** The forecast pipeline *)

Import WeatherForecast ForecastExamples.

Lemma column_at_spec col i :
  (forall v, col !! i = Some v -> column_at col i = v)
  /\ ((length col <= i)%nat -> column_at col i = None).
Proof.
  unfold column_at. split.
  - now intros v ->.
  - intros H. now rewrite (lookup_ge_None_2 _ _ H).
Qed.

(** X9.  _process_weather_data builds one daily entry per element of the
    provider's daily "time" list, in order; entry i carries the i-th date
    and, under every other key of the block, the i-th element of that key's
    list, or None when that list is too short.  No entry is built when the
    "time" list is missing or empty. *)
Theorem process_weather_data_daily (data : response) (utcnow : Z) :
  let f := _process_weather_data data utcnow in
  length (WeatherForecast.daily f) = length (time (response_daily data))
  /\ (forall i t, time (response_daily data) !! i = Some t ->
        exists e, WeatherForecast.daily f !! i = Some e
          /\ entry_time e = t
          /\ forall key,
               values e !! key
               = (fun col => column_at col i) <$> (columns (response_daily data) !! key))
  /\ (forall col i v, col !! i = Some v -> column_at col i = v)
  /\ (forall col i, (length col <= i)%nat -> column_at col i = None).
Proof.
  cbn zeta. unfold _process_weather_data; cbn [WeatherForecast.daily].
  split; [apply length_imap|]. split.
  - intros i t Ht. rewrite list_lookup_imap, Ht. cbn.
    eexists. split; [reflexivity|]. split; [reflexivity|].
    intros key. cbn. unfold daily_values. apply lookup_fmap.
  - split; intros; now apply column_at_spec.
Qed.

Lemma hourly_fold_lookup (cols : gmap string (list (option Q))) i key
    (params : list string) :
  forall m : gmap string (option Q),
  foldl (fun m param =>
           match cols !! param with
           | Some col => <[param := column_at col i]> m
           | None => m
           end) m params !! key
  = if decide (key ∈ params)
    then match cols !! key with
         | Some col => Some (column_at col i)
         | None => m !! key
         end
    else m !! key.
Proof.
  induction params as [|param l IH]; intros m.
  - cbn. rewrite decide_False by apply not_elem_of_nil. reflexivity.
  - cbn [foldl]. rewrite IH.
    destruct (decide (key ∈ l)) as [Hin|Hnin].
    + rewrite decide_True by now right.
      destruct (cols !! key) as [col|] eqn:Hk; [reflexivity|].
      destruct (cols !! param) as [colp|] eqn:Hp; [|reflexivity].
      rewrite lookup_insert_ne; [reflexivity|]. intros ->. congruence.
    + destruct (decide (key = param)) as [->|Hne].
      * rewrite decide_True by now left.
        destruct (cols !! param) as [colp|]; [|reflexivity].
        now rewrite lookup_insert_eq.
      * rewrite decide_False
          by (intros H; apply elem_of_cons in H as [H|H]; contradiction).
        destruct (cols !! param) as [colp|]; [|reflexivity].
        now rewrite lookup_insert_ne by congruence.
Qed.

Lemma hourly_values_lookup (cols : gmap string (list (option Q))) i key :
  hourly_values cols i !! key
  = if decide (key ∈ WEATHER_PARAMS)
    then (fun col => column_at col i) <$> (cols !! key)
    else None.
Proof.
  unfold hourly_values. rewrite hourly_fold_lookup, lookup_empty.
  destruct (decide (key ∈ WEATHER_PARAMS)); [|reflexivity].
  now destruct (cols !! key).
Qed.

(** X10.  _process_weather_data builds one hourly entry per element of the
    hourly "time" list; entry i keeps, of the provider's keys, only those
    listed in WEATHER_PARAMS (with the i-th element, or None when the list
    is too short) and drops every other key. *)
Theorem process_weather_data_hourly (data : response) (utcnow : Z) :
  let f := _process_weather_data data utcnow in
  length (hourly f) = length (time (response_hourly data))
  /\ (forall i t, time (response_hourly data) !! i = Some t ->
        exists e, hourly f !! i = Some e
          /\ entry_time e = t
          /\ (forall key, key ∈ WEATHER_PARAMS ->
                values e !! key
                = (fun col => column_at col i)
                    <$> (columns (response_hourly data) !! key))
          /\ (forall key, key ∉ WEATHER_PARAMS -> values e !! key = None)).
Proof.
  cbn zeta. unfold _process_weather_data; cbn [hourly].
  split; [apply length_imap|].
  intros i t Ht. rewrite list_lookup_imap, Ht. cbn [fmap option_fmap option_map].
  eexists. split; [reflexivity|]. cbn [entry_time values].
  split; [reflexivity|].
  split; intros key Hk; rewrite hourly_values_lookup.
  - now rewrite decide_True.
  - now rewrite decide_False.
Qed.

Lemma Forall_imap_intro {A B} (P : B -> Prop) (l : list A) :
  forall f : nat -> A -> B, (forall i x, P (f i x)) -> Forall P (imap f l).
Proof.
  induction l as [|x l IH]; intros f Hf; cbn; constructor; [apply Hf|].
  apply IH. intros i y. apply Hf.
Qed.

Lemma imap_times (l : list Z) :
  forall vals : nat -> gmap string (option Q),
  List.map entry_time (imap (fun i t => {| entry_time := t; values := vals i |}) l)
  = l.
Proof.
  induction l as [|t l IH]; intros vals; cbn; [reflexivity|].
  f_equal. apply (IH (fun i => vals (S i))).
Qed.

Lemma save_weather_data_rows db (data : response) utcnow lat lon :
  exists rows,
    save_weather_data db (_process_weather_data data utcnow) lat lon = db ++ rows
    /\ List.map WeatherForecast.date rows = time (response_hourly data)
    /\ Forall (fresh_row lat lon) rows.
Proof.
  unfold save_weather_data.
  eexists. split; [reflexivity|]. split.
  - rewrite List.map_map. cbn. apply imap_times.
  - apply Forall_map. cbn [hourly _process_weather_data].
    apply Forall_imap_intro. intros i t.
    unfold fresh_row, weather_record, entry_get.
    cbn [location_lat location_lon snowfall soil_moisture_9_27cm
         soil_moisture_27_81cm values].
    rewrite !hourly_values_lookup. repeat split.
Qed.

(** X11.  When the provider answers, get_weather_forecast returns the
    processed forecast and appends to the table one row per hourly entry,
    in order, stamped with the requested place; rows already stored are
    kept.  The rows never carry snowfall or the two deep soil-moisture
    readings, whatever the provider sent, because these keys are not in
    WEATHER_PARAMS. *)
Theorem get_weather_forecast_online
    (db : list WeatherData) (request : WeatherForecastRequest)
    (data : response) (utcnow : Z) :
  (get_weather_forecast db request (Some data) utcnow).2
    = Forecast (_process_weather_data data utcnow)
  /\ exists rows,
       (get_weather_forecast db request (Some data) utcnow).1 = db ++ rows
       /\ List.map WeatherForecast.date rows = time (response_hourly data)
       /\ Forall (fresh_row (request_latitude request) (request_longitude request))
            rows.
Proof.
  cbn [get_weather_forecast fst snd]. split; [reflexivity|].
  apply save_weather_data_rows.
Qed.

Lemma Zltb_asym a b : (a <? b)%Z = true -> (b <? a)%Z = false.
Proof. rewrite Z.ltb_lt, Z.ltb_ge. lia. Qed.

Lemma latest_records_nil db lat lon :
  latest_records db lat lon = [] <-> List.filter (at_location lat lon) db = [].
Proof.
  unfold latest_records. split.
  - intros H. apply take_nil_inv in H as [H|H]; [discriminate|].
    now apply sort_desc_nil in H.
  - intros ->. reflexivity.
Qed.

Lemma latest_records_stored db lat lon :
  Forall (fun r => r ∈ db /\ at_location lat lon r = true)
    (latest_records db lat lon).
Proof.
  unfold latest_records. apply Forall_take.
  rewrite (sort_desc_perm Z.ltb WeatherForecast.date).
  apply Forall_forall. intros r Hr. apply list_elem_of_In in Hr.
  apply filter_In in Hr as [Hin Hat]. split; [|exact Hat].
  now apply list_elem_of_In.
Qed.

Lemma latest_records_first_is_latest db lat lon first rest :
  latest_records db lat lon = first :: rest ->
  Forall (fun r => at_location lat lon r = true ->
                   (WeatherForecast.date r <= WeatherForecast.date first)%Z) db.
Proof.
  unfold latest_records. intros H.
  pose proof (sort_desc_sorted Z.ltb WeatherForecast.date Zltb_asym
                (List.filter (at_location lat lon) db)) as Hs.
  pose proof (sort_desc_perm Z.ltb WeatherForecast.date
                (List.filter (at_location lat lon) db)) as Hp.
  destruct (sort_desc Z.ltb WeatherForecast.date
              (List.filter (at_location lat lon) db)) as [|x l]; [discriminate|].
  cbn in H. injection H as <- _.
  apply Sorted_StronglySorted in Hs.
  - apply StronglySorted_inv in Hs as [_ Hall].
    apply Forall_forall. intros r Hr Hat.
    assert (Hin : In r (x :: l)).
    { apply (Permutation_in r (Permutation_sym Hp)).
      apply filter_In. split; [now apply list_elem_of_In|exact Hat]. }
    destruct Hin as [->|Hin]; [lia|].
    rewrite Forall_forall in Hall.
    specialize (Hall r (proj2 (list_elem_of_In _ _) Hin)).
    unfold desc in Hall. apply Z.ltb_ge in Hall. exact Hall.
  - intros a b c. unfold desc. rewrite !Z.ltb_ge. lia.
Qed.

Lemma get_last_saved_weather_none db lat lon :
  get_last_saved_weather db lat lon = None
  <-> List.filter (at_location lat lon) db = [].
Proof.
  unfold get_last_saved_weather. rewrite <- latest_records_nil.
  destruct (latest_records db lat lon); split; congruence.
Qed.

Lemma get_last_saved_weather_some db lat lon f :
  get_last_saved_weather db lat lon = Some f ->
  is_offline_data f = true
  /\ WeatherForecast.daily f = []
  /\ (0 < length (hourly f) <= 24)%nat
  /\ Forall (fun e => exists r, r ∈ db /\ at_location lat lon r = true
                                /\ entry_time e = WeatherForecast.date r)
       (hourly f)
  /\ Forall (fun r => at_location lat lon r = true ->
                      (WeatherForecast.date r <= retrieved_at f)%Z) db.
Proof.
  unfold get_last_saved_weather.
  pose proof (latest_records_stored db lat lon) as Hst.
  pose proof (latest_records_first_is_latest db lat lon) as Hmax.
  assert (Hlen : (length (latest_records db lat lon) <= 24)%nat).
  { unfold latest_records. rewrite length_take. lia. }
  destruct (latest_records db lat lon) as [|first rest]; [discriminate|].
  intros [= <-]. cbn [is_offline_data WeatherForecast.daily hourly retrieved_at].
  split; [reflexivity|]. split; [reflexivity|]. split.
  { cbn [List.map length] in *. rewrite ?length_map. lia. }
  split.
  + apply Forall_forall. intros e He.
    apply list_elem_of_In in He.
    match type of He with
    | In _ (_ :: List.map ?f rest) =>
        change (In e (List.map f (first :: rest))) in He
    end.
    apply in_map_iff in He as (r & <- & Hr).
    rewrite Forall_forall in Hst.
    destruct (Hst r (proj2 (list_elem_of_In _ _) Hr)) as [Hin Hat].
    exists r. auto.
  + now apply (Hmax first rest).
Qed.



(** X13.  get_weather_forecast fails exactly when the provider cannot be
    reached and no row is stored for the requested place; whenever the
    provider cannot be reached the table is left unchanged. *)
Theorem get_weather_forecast_unavailable
    (db : list WeatherData) (request : WeatherForecastRequest)
    (fetched : option response) (utcnow : Z) :
  ((get_weather_forecast db request fetched utcnow).2 = Unavailable
   <-> fetched = None
       /\ List.filter (at_location (request_latitude request)
                         (request_longitude request)) db = [])
  /\ (fetched = None -> (get_weather_forecast db request fetched utcnow).1 = db).
Proof.
  unfold get_weather_forecast.
  pose proof (get_last_saved_weather_none db (request_latitude request)
                (request_longitude request)) as Hnone.
  destruct fetched as [data|]; cbn.
  - split; [|discriminate]. split; [discriminate|]. intros [[=] _].
  - destruct (get_last_saved_weather db _ _) as [f|] eqn:Hf; cbn.
    + split; [|reflexivity]. split; [discriminate|].
      intros [_ H]. apply Hnone in H. discriminate.
    + split; [|reflexivity]. split; [|reflexivity].
      intros _. split; [reflexivity|]. now apply Hnone.
Qed.

Lemma Qeqb_refl x : Qeqb x x = true.
Proof. apply Qeqb_eq. reflexivity. Qed.

(** X14.  After a fetch that delivered at least one hourly entry, a later
    call for the same place whose fetch fails does not fail: it returns the
    stored rows as an offline forecast, dated at or after the last hourly
    stamp just saved. *)
Theorem get_weather_forecast_offline_after_online
    (db : list WeatherData) (request : WeatherForecastRequest)
    (data : response) (utcnow utcnow' : Z) (t : Z) :
  last (time (response_hourly data)) = Some t ->
  let db' := (get_weather_forecast db request (Some data) utcnow).1 in
  exists f,
    get_weather_forecast db' request None utcnow' = (db', Forecast f)
    /\ is_offline_data f = true
    /\ (t <= retrieved_at f)%Z.
Proof.
  intros Hlast. cbn zeta. cbn [get_weather_forecast fst].
  destruct (save_weather_data_rows db data utcnow (request_latitude request)
              (request_longitude request)) as (rows & Hdb & Htimes & Hrows).
  rewrite Hdb.
  assert (Hrow : exists r, r ∈ rows /\ WeatherForecast.date r = t).
  { rewrite <- Htimes in Hlast.
    destruct rows as [|r0 rows0] using rev_ind; [discriminate|].
    rewrite map_app in Hlast. cbn in Hlast. rewrite last_snoc in Hlast.
    injection Hlast as Hlast. exists r0. split; [|exact Hlast].
    apply elem_of_app. right. now left. }
  destruct Hrow as (r & Hin & Hdate).
  assert (Hat : at_location (request_latitude request)
                  (request_longitude request) r = true).
  { rewrite Forall_forall in Hrows. destruct (Hrows r Hin) as (Hlat & Hlon & _).
    unfold at_location. now rewrite Hlat, Hlon, !Qeqb_refl. }
  pose proof (get_last_saved_weather_none (db ++ rows)
                (request_latitude request) (request_longitude request))
    as Hnone.
  destruct (get_last_saved_weather (db ++ rows) _ _) as [f|] eqn:Hf.
  - exists f. split; [reflexivity|].
    destruct (get_last_saved_weather_some _ _ _ _ Hf)
      as (Hoff & _ & _ & _ & Hmax).
    split; [exact Hoff|]. rewrite Forall_forall in Hmax.
    rewrite <- Hdate. apply Hmax; [|exact Hat].
    apply elem_of_app. now right.
  - exfalso. assert (Hnil := proj1 Hnone eq_refl).
    assert (Hr : In r (List.filter (at_location (request_latitude request)
                                      (request_longitude request)) (db ++ rows))).
    { apply filter_In. split; [|exact Hat].
      apply list_elem_of_In, elem_of_app. now right. }
    rewrite Hnil in Hr. destruct Hr.
Qed.

Lemma get_weather_forecast_offline_after_online_example :
  exists f,
    get_weather_forecast
      (get_weather_forecast [] manila_request (Some one_hour_answer) 0).1
      manila_request None 60
    = ((get_weather_forecast [] manila_request (Some one_hour_answer) 0).1,
       Forecast f)
    /\ is_offline_data f = true
    /\ (days 5 <= retrieved_at f)%Z.
Proof.
  apply (get_weather_forecast_offline_after_online [] manila_request
           one_hour_answer 0 60 (days 5)).
  reflexivity.
Defined.

(** X15.  The offline forecast of get_last_saved_weather has no daily
    entries.  Read by check_weather_suitability and
    get_optimal_weather_window it therefore makes every day suitable by
    default and gives an empty ranking for every range. *)
Theorem offline_forecast_has_no_windows
    (db : list WeatherData) (lat lon : Q) (f : forecast) :
  get_last_saved_weather db lat lon = Some f ->
  (forall str d dry,
     check_weather_suitability str (weather_data_of f) d dry
     = Returns suitable_by_default)
  /\ (forall s e dry,
        get_optimal_weather_window (weather_data_of f) s e dry = Returns []).
Proof.
  intros Hf.
  destruct (get_last_saved_weather_some _ _ _ _ Hf) as (_ & Hdaily & _).
  unfold weather_data_of. rewrite Hdaily. cbn [List.map].
  split; reflexivity.
Qed.

Lemma offline_forecast_has_no_windows_example :
  exists f,
    get_last_saved_weather [stored_row_day_5] 13 123 = Some f
    /\ check_weather_suitability format_2f (weather_data_of f) (days 5) true
       = Returns suitable_by_default
    /\ get_optimal_weather_window (weather_data_of f) 0 (days 30) true
       = Returns [].
Proof.
  eexists. split; [reflexivity|].
  destruct (offline_forecast_has_no_windows [stored_row_day_5] 13 123 _ eq_refl)
    as (Hday & Hrank).
  split; [apply Hday|apply Hrank].
Defined.

(** ** Failure of the ranking *)

(** X16.  get_optimal_weather_window either returns a list of windows or
    raises TypeError, and it raises exactly when some daily entry dated
    within the range stores None as its precipitation; entries outside the
    range are never inspected. *)
Theorem get_optimal_weather_window_outcome
    (wd : weather_data) (s e : datetime) (dry : bool) :
  ((exists ws, get_optimal_weather_window wd s e dry = Returns ws)
   <-> Forall (fun d => in_range s e d = true -> precipitation_sum d <> Some None)
         (Weather.daily wd))
  /\ (get_optimal_weather_window wd s e dry = Raises TypeError
      <-> Exists (fun d => in_range s e d = true /\ precipitation_sum d = Some None)
            (Weather.daily wd))
  /\ (forall err, get_optimal_weather_window wd s e dry = Raises err ->
        err = TypeError).
Proof.
  unfold get_optimal_weather_window.
  destruct (collect_windows_outcome s e dry (Weather.daily wd))
    as [(Hall & ws & ->)|(Hex & ->)]; cbn.
  - split; [|split].
    + split; [intros _; exact Hall|intros _; now eexists].
    + split; [discriminate|]. intros Hex.
      apply Exists_exists in Hex as (d & Hd & Hin & Hnone).
      rewrite Forall_forall in Hall. now destruct (Hall d Hd Hin).
    + discriminate.
  - split; [|split].
    + split; [intros [ws [=]]|]. intros Hall.
      apply Exists_exists in Hex as (d & Hd & Hin & Hnone).
      rewrite Forall_forall in Hall. now destruct (Hall d Hd Hin).
    + split; [intros _; exact Hex|reflexivity].
    + now intros err [= <-].
Qed.

(** ** Yield estimate and recommendation *)

Lemma impact_factor_pos op : (0 < default (1 # 10)%Q (impact_factors !! op))%Q.
Proof.
  destruct (impact_factors !! op) as [u|] eqn:E; [|reflexivity].
  unfold impact_factors in E. apply elem_of_list_to_map_2 in E.
  repeat (apply elem_of_cons in E as [E|E]; [injection E as _ ->; reflexivity|]).
  now apply elem_of_nil in E.
Qed.

Lemma base_yields_pos crop : (0 < base_yields crop)%Q.
Proof. destruct crop as [[| |]|]; reflexivity. Qed.

Lemma predict_yield_mono crop op score score' area :
  (0 <= area)%Q -> (score <= score')%Q ->
  (_predict_yield crop op score area <= _predict_yield crop op score' area)%Q.
Proof.
  unfold _predict_yield. intros Ha Hs.
  pose proof (impact_factor_pos op) as Hi.
  pose proof (base_yields_pos crop) as Hb.
  set (i := default (1 # 10)%Q (impact_factors !! op)) in *.
  set (b := base_yields crop) in *.
  assert (Hc : (0 <= b * area * i)%Q).
  { apply Qmult_le_0_compat; [apply Qmult_le_0_compat|]; lra. }
  assert (Hd : (0 <= (score' - score) / 100)%Q).
  { apply Qle_shift_div_l; lra. }
  pose proof (Qmult_le_0_compat _ _ Hc Hd) as Hm.
  setoid_replace (score' / 100)%Q with (score / 100 + (score' - score) / 100)%Q
    using relation Qeq by field.
  lra.
Qed.



Lemma apply_budget_constraint_from request field ws :
  Forall (fun w => exists w0, w0 ∈ ws /\ same_weather w0 w)
    (apply_budget_constraint request field ws).
Proof.
  induction ws as [|w0 l IH]; cbn [apply_budget_constraint]; [constructor|].
  assert (Hl : Forall (fun w => exists w1, w1 ∈ w0 :: l /\ same_weather w1 w)
                 (apply_budget_constraint request field l)).
  { eapply Forall_impl; [exact IH|]. intros w (w1 & Hin & Hs).
    exists w1. split; [now right|exact Hs]. }
  destruct (over_budget _ _); [exact Hl|].
  constructor; [|exact Hl]. exists w0. split; [now left|repeat split].
Qed.

Lemma relax_budget_constraint_from request field ws :
  Forall (fun w => exists w0, w0 ∈ ws /\ same_weather w0 w)
    (relax_budget_constraint request field ws).
Proof.
  unfold relax_budget_constraint. apply Forall_forall. intros w Hw.
  apply list_elem_of_In, in_map_iff in Hw as (w0 & <- & Hin).
  exists w0. split; [now apply list_elem_of_In|repeat split].
Qed.

Lemma ranked_windows_from request field ws :
  Forall (fun w => exists w0, w0 ∈ ws /\ same_weather w0 w)
    (ranked_windows request field ws).
Proof.
  unfold ranked_windows.
  rewrite (sort_desc_perm pair_ltb recommendation_key).
  destruct (apply_budget_constraint request field ws) eqn:Hb.
  - apply relax_budget_constraint_from.
  - rewrite <- Hb. apply apply_budget_constraint_from.
Qed.

Lemma ranked_windows_nonempty request field w ws :
  ranked_windows request field (w :: ws) <> [].
Proof.
  unfold ranked_windows. intros H. apply sort_desc_nil in H.
  destruct (apply_budget_constraint request field (w :: ws)); discriminate.
Qed.

Lemma ranked_windows_cost request field ws :
  Forall (fun w => default 0%Q (estimated_cost w) = request_cost request field)
    (ranked_windows request field ws).
Proof.
  unfold ranked_windows.
  rewrite (sort_desc_perm pair_ltb recommendation_key).
  assert (Hb : Forall (fun w => default 0%Q (estimated_cost w)
                                = request_cost request field)
                 (apply_budget_constraint request field ws)).
  { induction ws as [|w0 l IH]; cbn [apply_budget_constraint]; [constructor|].
    destruct (over_budget _ _); [exact IH|]. constructor; [reflexivity|exact IH]. }
  destruct (apply_budget_constraint request field ws) eqn:E; [|exact Hb].
  unfold relax_budget_constraint. apply Forall_forall. intros w Hw.
  apply list_elem_of_In, in_map_iff in Hw as (w0 & <- & _). reflexivity.
Qed.

(** X18.  predict_optimal_date returns no response.  It fails with "Field
    with id ... not found" exactly when no field has the requested id; for
    an existing field it raises NameError, whatever the request, the
    forecast and the clock are, because engine.py neither defines nor
    imports the name WeatherService that line 205 calls. *)
Theorem predict_optimal_date_failures
    (db : Session) (request : DecisionTreeRequest) (wd : weather_data)
    (now : datetime) :
  (predict_optimal_date db request wd now
     = Raises (FieldNotFound (request_field_id request))
   <-> query_field db (request_field_id request) = None)
  /\ (predict_optimal_date db request wd now = Raises NameError
      <-> exists field, query_field db (request_field_id request) = Some field)
  /\ (forall r, predict_optimal_date db request wd now <> Returns r).
Proof.
  unfold predict_optimal_date.
  destruct (query_field db (request_field_id request)) as [field|];
    cbn [WeatherService mbind outcome_bind].
  - split; [split; discriminate|]. split; [|discriminate].
    split; [intros _; now exists field|reflexivity].
  - split; [split; reflexivity|]. split; [|discriminate].
    split; [discriminate|]. intros [field [=]].
Qed.

(** X19.  Lines 226-299 of predict_optimal_date ([recommend]), run on a
    non-empty ranking of get_optimal_weather_window, always produce a
    response, so suitable_windows[0] never fails: the recommended date is
    the date of one of the ranked windows and lies within the range asked
    for, the confidence lies between 0 and 0.95, the estimated cost is the
    cost estimate of the operation on the field's area, and the weather
    risk is one of "low", "medium" and "high". *)
Theorem recommend_response_bounds
    (request : DecisionTreeRequest) (field : Field) (wd : weather_data)
    (s e : datetime) (dry : bool) (w : window) (l : list window) :
  get_optimal_weather_window wd s e dry = Returns (w :: l) ->
  exists r,
    recommend request field (w :: l) = Returns r
    /\ (exists w0, w0 ∈ w :: l /\ recommended_date r = window_date w0)
    /\ (s <= recommended_date r <= e)%Z
    /\ (0 <= confidence_score r <= 95 # 100)%Q
    /\ response_estimated_cost r = request_cost request field
    /\ (weather_risk r = "low" \/ weather_risk r = "medium"
        \/ weather_risk r = "high").
Proof.
  intros Hg. apply ranking_bounds in Hg as Hb.
  pose proof (ranked_windows_from request field (w :: l)) as Hfrom.
  pose proof (ranked_windows_cost request field (w :: l)) as Hcost.
  pose proof (ranked_windows_nonempty request field w l) as Hne.
  unfold recommend.
  destruct (ranked_windows request field (w :: l)) as [|best rest];
    [contradiction|].
  eexists. split; [reflexivity|].
  cbn [recommended_date confidence_score response_estimated_cost weather_risk].
  apply Forall_inv in Hfrom as (w0 & Hin & Hd & Hs & _).
  apply Forall_inv in Hcost.
  rewrite Forall_forall in Hb. destruct (Hb w0 Hin) as [Hdate Hscore].
  rewrite Hd, Hs, Hcost. split; [now exists w0|]. split; [exact Hdate|].
  split; [|split; [reflexivity|]].
  - unfold min_. cmp_cases; [|lra]. split; [|lra].
    apply Qle_shift_div_l; lra.
  - unfold weather_risk_of. cmp_cases; auto.
Qed.

Lemma recommend_response_bounds_example :
  exists top rest r,
    get_optimal_weather_window example_forecast 0 (days 30) true
      = Returns (top :: rest)
    /\ recommend tight_request example_field (top :: rest) = Returns r
    /\ (0 <= recommended_date r <= days 30)%Z
    /\ (0 <= confidence_score r <= 95 # 100)%Q.
Proof.
  assert (Hws : exists top rest,
             get_optimal_weather_window example_forecast 0 (days 30) true
               = Returns (top :: rest))
    by (vm_compute; eauto).
  destruct Hws as (top & rest & Hws).
  destruct (recommend_response_bounds tight_request example_field
              example_forecast 0 (days 30) true top rest Hws)
    as (r & Hr & _ & Hd & Hc & _).
  exists top, rest, r. auto.
Defined.

Lemma apply_budget_constraint_kept request field ws :
  over_budget (budget_constraint request) (request_cost request field) = false ->
  Forall2 (annotated request field) ws (apply_budget_constraint request field ws).
Proof.
  intros Hover. induction ws as [|w l IH]; cbn [apply_budget_constraint];
    [constructor|].
  fold (request_cost request field). rewrite Hover.
  constructor; [repeat split|exact IH].
Qed.

Lemma annotated_sorted request field ws ws' :
  (0 <= area_hectares field)%Q ->
  Forall2 (annotated request field) ws ws' ->
  Sorted (desc Qltb weather_score) ws ->
  Sorted (desc pair_ltb recommendation_key) ws'.
Proof.
  intros Harea. induction 1 as [|w w' l l' Hw Hl IH]; intros Hs; [constructor|].
  apply Sorted_inv in Hs as [Hs Hhd]. constructor; [now apply IH|].
  destruct Hl as [|v v' l l' Hv Hl]; constructor.
  apply HdRel_inv in Hhd. unfold desc, recommendation_key, pair_ltb in *.
  destruct Hw as ((_ & Hsw & _) & _ & _ & ->).
  destruct Hv as ((_ & Hsv & _) & _ & _ & ->). cbn. rewrite Hsw, Hsv, Hhd.
  apply Qltb_ge in Hhd.
  pose proof (predict_yield_mono (crop_type field)
                (operation_value (operation_type request))
                _ _ (area_hectares field) Harea Hhd) as Hy.
  rewrite andb_false_r, orb_false_r. apply Qltb_ge. lra.
Qed.

(** X20.  When no budget constraint is given, or it is 0, or the estimated
    cost does not exceed it, and the field's area is not negative, lines
    226-299 of predict_optimal_date ([recommend]) recommend the top-ranked
    weather window: the response carries its date, the estimated cost, the
    net return yield - cost at that window's score, and the reason ends with
    "Within budget constraints".  A budget of 0 is thus treated as no
    budget. *)
Theorem recommend_within_budget
    (request : DecisionTreeRequest) (field : Field) (wd : weather_data)
    (s e : datetime) (dry : bool) (top : window) (rest : list window) :
  (0 <= area_hectares field)%Q ->
  (budget_constraint request = None
   \/ exists b, budget_constraint request = Some b
        /\ ((b == 0)%Q \/ (request_cost request field <= b)%Q)) ->
  get_optimal_weather_window wd s e dry = Returns (top :: rest) ->
  exists r,
    recommend request field (top :: rest) = Returns r
    /\ recommended_date r = window_date top
    /\ response_estimated_cost r = request_cost request field
    /\ response_net_financial_return r
       = Some (_predict_yield (crop_type field)
                 (operation_value (operation_type request))
                 (weather_score top) (area_hectares field)
               - request_cost request field)%Q
    /\ recommendation_reason r =
         (if Qleb 80 (weather_score top) then "Excellent weather conditions"
          else if Qleb 60 (weather_score top) then "Good weather conditions"
          else "Acceptable weather conditions")
         +:+ "; Within budget constraints".
Proof.
  intros Harea Hbudget Hws.
  assert (Hover : over_budget (budget_constraint request)
                    (request_cost request field) = false).
  { unfold over_budget, and_then.
    destruct Hbudget as [->|(b & -> & [Hz|Hle])]; [reflexivity| |].
    - apply Qeqb_eq in Hz. now rewrite Hz.
    - apply Qltb_ge in Hle. rewrite Hle. apply andb_false_r. }
  destruct (get_optimal_weather_window_shape _ _ _ _ _ Hws) as [_ Hsorted].
  pose proof (apply_budget_constraint_kept request field (top :: rest) Hover)
    as Hann.
  assert (Hranked : ranked_windows request field (top :: rest)
                    = apply_budget_constraint request field (top :: rest)).
  { unfold ranked_windows.
    pose proof (annotated_sorted _ _ _ _ Harea Hann Hsorted) as Hs.
    destruct (apply_budget_constraint request field (top :: rest));
      [inversion Hann|].
    now apply sort_desc_sorted_id. }
  unfold recommend. rewrite Hranked. clear Hranked. revert Hann.
  generalize (apply_budget_constraint request field (top :: rest)) as kept.
  intros kept Hann.
  inversion Hann as [|w0 best l0 l1 Hbest _]; subst.
  destruct Hbest as ((Hd & Hs & _) & Hc & Hok & Hn).
  eexists. split; [reflexivity|].
  cbn [recommended_date response_estimated_cost
       response_net_financial_return recommendation_reason].
  rewrite Hd, Hc, Hn. repeat (split; [reflexivity|]).
  unfold recommendation_reasons. rewrite Hs, Hok. cbn [default join].
  destruct (Qleb 80 (weather_score top)), (Qleb 60 (weather_score top));
    reflexivity.
Qed.

Lemma recommend_within_budget_example :
  exists top rest r,
    get_optimal_weather_window example_forecast 0 (days 30) true
      = Returns (top :: rest)
    /\ recommend free_request example_field (top :: rest) = Returns r
    /\ strftime_ymd (recommended_date r) = 2%Z
    /\ recommendation_reason r
       = "Excellent weather conditions; Within budget constraints".
Proof.
  assert (Hws : exists top rest,
             get_optimal_weather_window example_forecast 0 (days 30) true
               = Returns (top :: rest)
             /\ strftime_ymd (window_date top) = 2%Z
             /\ Qleb 80 (weather_score top) = true)
    by (vm_compute; eauto).
  destruct Hws as (top & rest & Hws & Htop & Hscore).
  destruct (recommend_within_budget free_request example_field
              example_forecast 0 (days 30) true top rest)
    as (r & Hr & Hd & _ & _ & Hreason).
  - discriminate.
  - right. exists 0%Q. split; [reflexivity|]. left. reflexivity.
  - exact Hws.
  - exists top, rest, r. split; [exact Hws|]. split; [exact Hr|].
    rewrite Hd, Hreason, Hscore. split; [exact Htop|reflexivity].
Defined.

(** ** Schedule generation *)

Lemma ranking_numeric wd s e dry :
  Forall numeric_precipitation (Weather.daily wd) ->
  exists ws, get_optimal_weather_window wd s e dry = Returns ws.
Proof.
  intros Hnum. unfold get_optimal_weather_window.
  destruct (collect_windows_outcome s e dry (Weather.daily wd))
    as [(_ & ws & ->)|(Hex & _)]; cbn; [now eexists|].
  apply Exists_exists in Hex as (d & Hd & _ & Hnone).
  rewrite Forall_forall in Hnum. now destruct (Hnum d Hd).
Qed.

Lemma collect_windows_dates s e dry entries ws :
  collect_windows s e dry entries = Returns ws ->
  Forall (fun w => exists d, d ∈ entries
                             /\ window_date w = fromisoformat (Weather.date d)) ws.
Proof.
  revert ws. induction entries as [|d l IH]; intros ws; cbn [collect_windows].
  - intros [= <-]. constructor.
  - assert (Hl : forall ws', collect_windows s e dry l = Returns ws' ->
               Forall (fun w => exists d', d' ∈ d :: l
                          /\ window_date w = fromisoformat (Weather.date d')) ws').
    { intros ws' Hws'. eapply Forall_impl; [apply IH, Hws'|].
      intros w (d' & Hin & Hw). exists d'. split; [now right|exact Hw]. }
    destruct (in_range s e d); [|apply Hl].
    destruct (score_entry dry _ d) as [w|] eqn:Hw; cbn; [|discriminate].
    destruct (collect_windows s e dry l) as [ws'|]; cbn; [|discriminate].
    intros [= <-]. constructor; [|now apply Hl].
    apply score_entry_bounds in Hw as [-> _]. exists d. split; [now left|reflexivity].
Qed.

Lemma ranking_dates wd s e dry ws :
  get_optimal_weather_window wd s e dry = Returns ws ->
  Forall (fun w => exists d, d ∈ Weather.daily wd
                             /\ window_date w = fromisoformat (Weather.date d)) ws.
Proof.
  unfold get_optimal_weather_window.
  destruct (collect_windows s e dry (Weather.daily wd)) as [un|] eqn:Hun; cbn;
    [|discriminate].
  intros [= <-]. rewrite (sort_desc_perm Qltb weather_score un).
  eapply collect_windows_dates, Hun.
Qed.

Lemma check_weather_suitability_numeric str wd d dry :
  Forall numeric_precipitation (Weather.daily wd) ->
  exists s, check_weather_suitability str wd d dry = Returns s.
Proof.
  unfold check_weather_suitability.
  generalize {| is_suitable := true; reasons := []; risks := [] |} as s0.
  induction (Weather.daily wd) as [|e l IH]; intros s0 Hnum; cbn [check_loop].
  - now eexists.
  - apply Forall_cons in Hnum as [He Hl].
    destruct (Weather.date e =? strftime_ymd d)%Z; [|now apply IH].
    unfold check_entry, numeric_precipitation in *.
    destruct (precipitation_sum e) as [[p|]|]; [| contradiction |];
      destruct dry; cbn; eexists; reflexivity.
Qed.

Lemma pick_window_In first ws : In (pick_window first (first :: ws)) (first :: ws).
Proof.
  unfold pick_window.
  destruct (List.find window_is_suitable (first :: ws)) as [w|] eqn:Hf; cbn.
  - now apply find_some in Hf as [Hin _].
  - now left.
Qed.

(** X21.  The date resolution of one step of generate_optimized_schedule
    (lines 64-87, [choose_date]).  On a forecast none of whose daily entries
    stores None as its precipitation it returns a date.  A date it returns
    lies within 7 days of the proposed date, and is either the proposed date
    itself or the date of a daily entry of the forecast.  The only error it
    can raise is TypeError. *)
Theorem choose_date_within_a_week
    (str : Q -> string) (wd : weather_data) (proposed : datetime) :
  (Forall numeric_precipitation (Weather.daily wd) ->
   exists d, choose_date str wd proposed = Returns d)
  /\ (forall d, choose_date str wd proposed = Returns d ->
        (proposed - days 7 <= d <= proposed + days 7)%Z
        /\ (d = proposed
            \/ exists entry, entry ∈ Weather.daily wd
                 /\ d = fromisoformat (Weather.date entry)))
  /\ (forall err, choose_date str wd proposed = Raises err -> err = TypeError).
Proof.
  unfold choose_date. split; [|split].
  - intros Hnum.
    destruct (check_weather_suitability_numeric str wd proposed true Hnum)
      as (s & ->). cbn [mbind outcome_bind].
    destruct (is_suitable s); cbn [negb]; [now eexists|].
    destruct (ranking_numeric wd (proposed - days 7) (proposed + days 7) true
                Hnum) as ([|w l] & ->); cbn [mbind outcome_bind]; now eexists.
  - intros d.
    destruct (check_weather_suitability str wd proposed true) as [s|e0];
      cbn [mbind outcome_bind]; [|discriminate].
    destruct (is_suitable s); cbn [negb].
    + intros [= <-]. split; [unfold days; lia|now left].
    + destruct (get_optimal_weather_window wd _ _ true) as [[|w l]|e1] eqn:Hg;
        cbn [mbind outcome_bind]; [| |discriminate].
      * intros [= <-]. split; [unfold days; lia|now left].
      * intros [= <-].
        pose proof (pick_window_In w l) as Hin. apply list_elem_of_In in Hin.
        apply ranking_bounds in Hg as Hb. apply ranking_dates in Hg as Hd.
        rewrite Forall_forall in Hb, Hd. split; [apply (Hb _ Hin)|].
        right. apply (Hd _ Hin).
  - intros err.
    destruct (check_weather_suitability str wd proposed true) as [s|e0] eqn:Hc;
      cbn [mbind outcome_bind].
    + destruct (is_suitable s); cbn [negb]; [discriminate|].
      destruct (get_optimal_weather_window wd _ _ true) as [[|w l]|e1] eqn:Hg;
        cbn [mbind outcome_bind]; try discriminate.
      intros [= <-]. eapply ranking_error, Hg.
    + intros [= <-]. eapply check_weather_suitability_error, Hc.
Qed.

Lemma choose_date_within_a_week_example :
  exists d,
    choose_date format_2f {| Weather.daily := [rainy_day_3; cold_day_0] |}
      (days 3) = Returns d
    /\ (days 3 - days 7 <= d <= days 3 + days 7)%Z.
Proof.
  destruct (choose_date_within_a_week format_2f
              {| Weather.daily := [rainy_day_3; cold_day_0] |} (days 3))
    as (Hret & Hdate & _).
  destruct Hret as (d & Hd).
  - cbn [Weather.daily].
    repeat (constructor; [intros H; cbn in H; discriminate H|]). constructor.
  - exists d. split; [exact Hd|]. apply (Hdate d Hd).
Defined.

(** X22.  The priority computed for any operation name lies between 1 and
    4, hence within the bounds 1..5 the task schema accepts. *)
Theorem calculate_priority_bounds (operation : string) :
  (1 <= _calculate_priority operation <= 4)%Z.
Proof.
  unfold _calculate_priority.
  destruct (priorities !! operation) as [p|] eqn:E; [|cbn; lia].
  unfold priorities in E. apply elem_of_list_to_map_2 in E.
  repeat (apply elem_of_cons in E as [E|E]; [injection E as _ ->; cbn; lia|]).
  now apply elem_of_nil in E.
Qed.

(** X23.  generate_optimized_schedule returns no schedule and stores
    nothing.  It fails with "Field with id ... not found" exactly when no
    field has the requested id; for an existing field it raises
    AttributeError, whatever the operations, the forecast and the clock are,
    because line 55 reads field.location_lat and models.Field declares no
    such column. *)
Theorem generate_optimized_schedule_outcome
    (str : Q -> string) (db : Session) (field_id user_id : Z)
    (operations : list string) (wd : weather_data) (now : datetime) :
  let run := generate_optimized_schedule str db field_id user_id operations
               wd now in
  run.1 = db
  /\ (run.2 = Raises (FieldNotFound field_id) <-> query_field db field_id = None)
  /\ (run.2 = Raises AttributeError
      <-> exists field, query_field db field_id = Some field)
  /\ (forall tasks, run.2 <> Returns tasks).
Proof.
  cbn zeta. unfold generate_optimized_schedule.
  destruct (query_field db field_id) as [field|]; cbn [fst snd].
  - split; [reflexivity|]. split; [split; discriminate|].
    split; [|discriminate]. split; [intros _; now exists field|reflexivity].
  - split; [reflexivity|]. split; [split; reflexivity|].
    split; [|discriminate]. split; [discriminate|]. intros [field [=]].
Qed.

(** ** Partial budgeting *)

Import FarmingDecision.


(** ** Totals of the resource allocation *)

Lemma sum_nonneg (l : list Q) :
  Forall (fun c => (0 <= c)%Q) l -> (0 <= foldr Qplus 0%Q l)%Q.
Proof. induction 1 as [|c l Hc _ IH]; cbn; lra. Qed.

Lemma sum_perm (l l' : list Q) :
  Permutation l l' -> (foldr Qplus 0%Q l == foldr Qplus 0%Q l')%Q.
Proof.
  induction 1 as [|x l l' _ IH|x y l|l1 l2 l3 _ IH1 _ IH2]; cbn; lra.
Qed.


Lemma greedy_all_funded cost remaining names allocation :
  greedy cost remaining names allocation ->
  Forall (fun c => (0 <= c)%Q) (List.map cost names) ->
  (foldr Qplus 0%Q (List.map cost names) < remaining)%Q ->
  allocation = List.map (fun name => (name, cost name)) names.
Proof.
  induction 1 as [rem|rem name names alloc Hc Hpos _ IH|rem name names Hc Hz
                 |rem name names Hlt]; intros Hall Hsum;
    cbn [List.map foldr] in *.
  - reflexivity.
  - apply Forall_cons in Hall as [Hn Hall]. f_equal. apply IH; [exact Hall|lra].
  - apply Forall_cons in Hall as [Hn Hall].
    pose proof (sum_nonneg _ Hall). lra.
  - apply Forall_cons in Hall as [Hn Hall].
    pose proof (sum_nonneg _ Hall). lra.
Qed.

Lemma optimize_resource_allocation_greedy resources constraints :
  NoDup (List.map fst resources) ->
  greedy (cost_of resources) (default 0%Q (constraints !! "budget"))
    (List.map fst (sorted_resources resources constraints))
    (optimize_resource_allocation resources constraints).
Proof.
  intros Hnd. unfold optimize_resource_allocation.
  destruct (allocate_greedy resources (sorted_resources resources constraints)
              (default 0%Q (constraints !! "budget")) [])
    as (alloc & -> & Hg).
  - unfold sorted_resources.
    rewrite (sort_desc_perm Qltb snd (ratios resources constraints)), ratios_names.
    exact Hnd.
  - intros k _ Hk. now apply elem_of_nil in Hk.
  - exact Hg.
Qed.

Lemma costs_of_names resources :
  NoDup (List.map fst resources) ->
  List.map (cost_of resources) (List.map fst resources) = dict_values resources.
Proof.
  intros Hnd. unfold dict_values. rewrite List.map_map.
  apply map_ext_in. intros [k v] Hin. cbn.
  apply cost_of_lookup; [exact Hnd|now apply list_elem_of_In].
Qed.

Lemma ranked_costs resources constraints :
  NoDup (List.map fst resources) ->
  Permutation
    (List.map (cost_of resources)
       (List.map fst (sorted_resources resources constraints)))
    (dict_values resources).
Proof.
  intros Hnd. rewrite <- (costs_of_names resources Hnd).
  apply Permutation_map. unfold sorted_resources.
  rewrite (sort_desc_perm Qltb snd (ratios resources constraints)), ratios_names.
  reflexivity.
Qed.



(** X26.  When the budget exceeds the total cost of the resources, none of
    them negative, optimize_resource_allocation funds every resource in
    full: the allocation lists the resources in ranking order, each with
    its own cost. *)
Theorem optimize_resource_allocation_funds_all
    (resources : dict) (constraints : gmap string Q) :
  NoDup (List.map fst resources) ->
  Forall (fun c => (0 <= c)%Q) (dict_values resources) ->
  (total resources < default 0%Q (constraints !! "budget"))%Q ->
  optimize_resource_allocation resources constraints
    = List.map (fun name => (name, cost_of resources name))
        (List.map fst (sorted_resources resources constraints))
  /\ (forall name c,
        (name, c) ∈ resources ->
        (name, c) ∈ optimize_resource_allocation resources constraints).
Proof.
  intros Hnd Hcosts Hbudget.
  pose proof (ranked_costs resources constraints Hnd) as Hperm.
  pose proof (optimize_resource_allocation_greedy resources constraints Hnd)
    as Hg.
  apply greedy_all_funded in Hg.
  - split; [exact Hg|]. intros name c Hin. rewrite Hg.
    apply list_elem_of_fmap. exists name.
    split; [now rewrite (cost_of_lookup resources name c Hnd Hin)|].
    assert (Hname : name ∈ List.map fst resources).
    { apply list_elem_of_fmap. now exists (name, c). }
    unfold sorted_resources.
    rewrite (sort_desc_perm Qltb snd (ratios resources constraints)), ratios_names.
    exact Hname.
  - now rewrite Hperm.
  - apply sum_perm in Hperm. unfold total in Hbudget. lra.
Qed.

Lemma optimize_resource_allocation_funds_all_example :
  optimize_resource_allocation scenario_D_resources {[ "budget" := 1000%Q ]}
  = [("A", 100%Q); ("B", 200%Q)].
Proof.
  destruct (optimize_resource_allocation_funds_all scenario_D_resources
              {[ "budget" := 1000%Q ]}) as [H _].
  - cbn. repeat constructor; rewrite ?elem_of_cons, ?elem_of_nil;
      intuition discriminate.
  - repeat constructor; discriminate.
  - reflexivity.
  - rewrite H. reflexivity.
Defined.
